(** * HTTP instrumentation of the OpenWPM web extension

    A shallow embedding of [HttpInstrument] (src/background/http-instrument.ts):
    the four webRequest listeners installed by [run], [cleanup], the request
    assembler [onBeforeSendHeadersHandler], the redirect recorder
    [onBeforeRedirectHandler] and the response assembler [onCompletedHandler]
    with [logWithResponseBody].

    The instrument is stateful (two maps of pending buffers, four listener
    fields) and talks to three outside parties: the data receiver (sink),
    the browser's webRequest/tabs API and the helper classes under lib/.
    Every call that leaves the instrument is appended to a chronological
    trace, so that "what was sent to the sink" is a statement about a list. *)

From Stdlib Require Import ZArith String List Lia.
From stdpp Require Import base option gmap strings list.

Open Scope Z_scope.
Open Scope string_scope.
Open Scope list_scope.

(** ** JavaScript strings *)

Module JsString.

(** [s.indexOf(pat)]: position of the first occurrence, [-1] when absent. *)
Definition indexOf (s pat : string) : Z :=
  match String.index 0 pat s with
  | Some n => Z.of_nat n
  | None => -1
  end.

(** [arr.includes(x)] on an array of strings. *)
Definition includes (arr : list string) (x : string) : bool :=
  existsb (String.eqb x) arr.

(** Truthiness of an optional string: [undefined] and [""] are falsy. *)
Definition truthy (o : option string) : bool :=
  match o with
  | Some s => negb (String.eqb s "")
  | None => false
  end.

(** [pat] occurs somewhere inside [s]. *)
Definition occurs (pat s : string) : Prop :=
  exists pre post, s = pre +:+ pat +:+ post.

End JsString.

(** ** Event details delivered by [browser.webRequest]

    One record per channel, with the fields the instrument reads. *)

Record HttpHeader := { name : string; value : string }.

Record FrameAncestor := { fa_url : string; fa_frameId : Z }.

(** The upload fragment of a body-stage event. *)
Record RequestBody := {
  rb_error : option string;
  formData : option (list (string * list string));
  raw : option (list string);
}.

Module OnBeforeRequest.
Record details := {
  requestId : Z;
  url : string;
  method : string;
  type : string;
  timeStamp : Z;
  originUrl : option string;
  requestBody : option RequestBody;
}.
End OnBeforeRequest.

Module OnBeforeSendHeaders.
Record details := {
  requestId : Z;
  url : string;
  method : string;
  type : string;
  timeStamp : Z;
  frameId : Z;
  parentFrameId : Z;
  tabId : Z;
  originUrl : option string;
  documentUrl : option string;
  requestHeaders : option (list HttpHeader);
  frameAncestors : option (list FrameAncestor);
}.
End OnBeforeSendHeaders.

Module OnBeforeRedirect.
Record details := {
  requestId : Z;
  timeStamp : Z;
  originUrl : option string;
}.
End OnBeforeRedirect.

Module OnCompleted.
Record details := {
  requestId : Z;
  url : string;
  method : string;
  type : string;
  timeStamp : Z;
  fromCache : bool;
  statusCode : Z;
  statusLine : string;
  originUrl : option string;
  responseHeaders : option (list HttpHeader);
}.
End OnCompleted.

(** [BlockingResponse]: what a blocking listener may ask the browser to do
    with the request.  The empty object asks for nothing. *)
Record BlockingResponse := {
  cancel : option bool;
  redirectUrl : option string;
  br_requestHeaders : option (list HttpHeader);
  br_responseHeaders : option (list HttpHeader);
}.

(** ** Records handed to the sink (schema.ts)

    An object built by assignment to [{}]: a field that one path never
    assigns is absent from the object, hence an [option]. *)

Module HttpRequest.
Record t := {
  crawl_id : Z;
  request_id : Z;
  url : string;
  method : string;
  time_stamp : string;
  post_body : option string;
  headers : string;
  is_XHR : Z;
  is_full_page : Z;
  is_frame_load : Z;
  triggering_origin : string;
  loading_origin : string;
  loading_href : string;
  resource_type : string;
  top_level_url : string;
  parent_frame_id : Z;
  frame_ancestors : string;
}.
End HttpRequest.

Module HttpResponse.
Record t := {
  crawl_id : Z;
  request_id : Z;
  is_cached : Z;
  url : string;
  method : string;
  response_status : Z;
  response_status_text : string;
  time_stamp : string;
  headers : string;
  location : string;
  content_hash : option string;
}.

(** [update.content_hash = h] *)
Definition set_content_hash (h : string) (u : t) : t :=
  {| crawl_id := crawl_id u; request_id := request_id u;
     is_cached := is_cached u; url := url u; method := method u;
     response_status := response_status u;
     response_status_text := response_status_text u;
     time_stamp := time_stamp u; headers := headers u;
     location := location u; content_hash := Some h |}.
End HttpResponse.

Module HttpRedirect.
Record t := {
  crawl_id : Z;
  old_request_id : Z;
  new_request_id : option Z;
  time_stamp : string;
}.
End HttpRedirect.

Inductive Row :=
| RequestRow (r : HttpRequest.t)
| ResponseRow (r : HttpResponse.t)
| RedirectRow (r : HttpRedirect.t).

(** The result of [HttpPostParser.parsePostRequest]; both fields optional
    ([in] tests).  [post_headers] keeps the enumeration order of the object. *)
Record ParsedPostRequest := {
  post_headers : option (list (string * string));
  parsed_post_body : option string;
}.

(** A thrown JavaScript error, as the [catch] clause reads it. *)
Record JsError := { err_name : string; err_message : string; err_stack : string }.

Record Tab := { tab_url : option string }.

(** ** Pending buffers (lib/pending-request.ts, lib/pending-response.ts) *)

(** The byte tap built by [new ResponseBodyListener(details)]; it remembers
    the body-stage event it was built from. *)
Record ResponseBodyListener := { tapped : OnBeforeRequest.details }.

(** Modelled from the spec: the class [PendingRequest] is not among the
    sources.  Section 3 of the specification gives it two fragment slots,
    empty on creation, each filled by its resolve operation. *)
Module PendingRequest.
Record t := {
  onBeforeRequestEventDetails : option OnBeforeRequest.details;
  onBeforeSendHeadersEventDetails : option OnBeforeSendHeaders.details;
}.

Definition new : t :=
  {| onBeforeRequestEventDetails := None;
     onBeforeSendHeadersEventDetails := None |}.

Definition resolveBeforeRequestEventDetails
    (d : OnBeforeRequest.details) (p : t) : t :=
  {| onBeforeRequestEventDetails := Some d;
     onBeforeSendHeadersEventDetails := onBeforeSendHeadersEventDetails p |}.

Definition resolveOnBeforeSendHeadersEventDetails
    (d : OnBeforeSendHeaders.details) (p : t) : t :=
  {| onBeforeRequestEventDetails := onBeforeRequestEventDetails p;
     onBeforeSendHeadersEventDetails := Some d |}.
End PendingRequest.

(** Modelled from the spec: the class [PendingResponse] is not among the
    sources.  Section 3 of the specification gives it the body-stage
    fragment, the completion fragment and an optional body capture
    listener, attached by [addResponseResponseBodyListener]. *)
Module PendingResponse.
Record t := {
  onBeforeRequestEventDetails : option OnBeforeRequest.details;
  onCompletedEventDetails : option OnCompleted.details;
  responseBodyListener : option ResponseBodyListener;
}.

Definition new : t :=
  {| onBeforeRequestEventDetails := None;
     onCompletedEventDetails := None;
     responseBodyListener := None |}.

Definition resolveBeforeRequestEventDetails
    (d : OnBeforeRequest.details) (p : t) : t :=
  {| onBeforeRequestEventDetails := Some d;
     onCompletedEventDetails := onCompletedEventDetails p;
     responseBodyListener := responseBodyListener p |}.

Definition resolveOnCompletedEventDetails
    (d : OnCompleted.details) (p : t) : t :=
  {| onBeforeRequestEventDetails := onBeforeRequestEventDetails p;
     onCompletedEventDetails := Some d;
     responseBodyListener := responseBodyListener p |}.

Definition addResponseResponseBodyListener
    (d : OnBeforeRequest.details) (p : t) : t :=
  {| onBeforeRequestEventDetails := onBeforeRequestEventDetails p;
     onCompletedEventDetails := onCompletedEventDetails p;
     responseBodyListener := Some {| tapped := d |} |}.
End PendingResponse.

(** ** The browser's event channels and the instrument's listeners *)

Inductive Channel :=
| onBeforeRequest
| onBeforeSendHeaders
| onBeforeRedirect
| onCompleted.

#[global] Instance Channel_eq_dec : EqDecision Channel.
Proof. solve_decision. Defined.

(** A listener is an arrow function created by [run]: it has an identity of
    its own and closes over the arguments of that call of [run]. *)
Record Listener := {
  listener_id : nat;
  crawlID : Z;
  saveJavascript : bool;
  saveAllContent : bool;
}.

Record RequestFilter := { urls : list string; types : list string }.

Record Subscription := {
  sub_channel : Channel;
  sub_listener : Listener;
  sub_filter : RequestFilter;
  sub_extraInfoSpec : list string;
}.

(** Does the subscription hold listener [l] on channel [ch]? *)
Definition holds (ch : Channel) (l : Listener) (sb : Subscription) : bool :=
  bool_decide (sub_channel sb = ch) && Nat.eqb (listener_id (sub_listener sb)) (listener_id l).

(** ** Calls that leave the instrument *)

Inductive Call :=
(* the data receiver *)
| saveRecord (table : string) (row : Row)
| saveContent (content : string) (contentHash : string)
| logError (message : string)
(* lib/ *)
| wait_resolvedWithinTimeout (requestId : Z) (ms : Z)
| run_parsePostRequest (d : OnBeforeRequest.details) (encodingType : string)
| new_ResponseBodyListener (d : OnBeforeRequest.details)
(* the browser *)
| tabs_get (tabId : Z)
| addListener (sb : Subscription)
| removeListener (ch : Channel) (l : Listener).

(** ** State *)

Record HttpInstrument := {
  pendingRequests : gmap Z PendingRequest.t;
  pendingResponses : gmap Z PendingResponse.t;
  onBeforeRequestListener : option Listener;
  onBeforeSendHeadersListener : option Listener;
  onBeforeRedirectListener : option Listener;
  onCompletedListener : option Listener;
}.

(** [new HttpInstrument(dataReceiver)] *)
Definition constructor : HttpInstrument :=
  {| pendingRequests := ∅; pendingResponses := ∅;
     onBeforeRequestListener := None; onBeforeSendHeadersListener := None;
     onBeforeRedirectListener := None; onCompletedListener := None |}.

Record State := {
  this : HttpInstrument;
  (** listeners currently registered on [browser.webRequest] *)
  subscriptions : list Subscription;
  (** identities handed out to arrow functions so far *)
  allocated : nat;
  (** calls made so far, oldest first *)
  trace : list Call;
}.

Definition initial : State :=
  {| this := constructor; subscriptions := []; allocated := 0%nat; trace := [] |}.

(** ** The state monad the methods run in *)

Definition M (A : Type) : Type := State -> A * State.

#[global] Instance M_ret : MRet M := fun A a s => (a, s).
#[global] Instance M_bind : MBind M :=
  fun A B f m s => let '(a, s') := m s in f a s'.

Definition call (c : Call) : M unit := fun s =>
  (tt, {| this := this s; subscriptions := subscriptions s;
          allocated := allocated s; trace := trace s ++ [c] |}).

Definition read : M HttpInstrument := fun s => (this s, s).

Definition write (i : HttpInstrument) : M unit := fun s =>
  (tt, {| this := i; subscriptions := subscriptions s;
          allocated := allocated s; trace := trace s |}).

Definition when (b : bool) (m : M unit) : M unit :=
  if b then m else mret tt.

Definition set_pendingRequests (m : gmap Z PendingRequest.t) (i : HttpInstrument) :=
  {| pendingRequests := m; pendingResponses := pendingResponses i;
     onBeforeRequestListener := onBeforeRequestListener i;
     onBeforeSendHeadersListener := onBeforeSendHeadersListener i;
     onBeforeRedirectListener := onBeforeRedirectListener i;
     onCompletedListener := onCompletedListener i |}.

Definition set_pendingResponses (m : gmap Z PendingResponse.t) (i : HttpInstrument) :=
  {| pendingRequests := pendingRequests i; pendingResponses := m;
     onBeforeRequestListener := onBeforeRequestListener i;
     onBeforeSendHeadersListener := onBeforeSendHeadersListener i;
     onBeforeRedirectListener := onBeforeRedirectListener i;
     onCompletedListener := onCompletedListener i |}.

(** [this.on...Listener = l], by channel *)
Definition set_listener (ch : Channel) (l : Listener) (i : HttpInstrument) :=
  {| pendingRequests := pendingRequests i; pendingResponses := pendingResponses i;
     onBeforeRequestListener :=
       if decide (ch = onBeforeRequest) then Some l else onBeforeRequestListener i;
     onBeforeSendHeadersListener :=
       if decide (ch = onBeforeSendHeaders) then Some l else onBeforeSendHeadersListener i;
     onBeforeRedirectListener :=
       if decide (ch = onBeforeRedirect) then Some l else onBeforeRedirectListener i;
     onCompletedListener :=
       if decide (ch = onCompleted) then Some l else onCompletedListener i |}.

Definition listener_field (ch : Channel) (i : HttpInstrument) : option Listener :=
  match ch with
  | onBeforeRequest => onBeforeRequestListener i
  | onBeforeSendHeaders => onBeforeSendHeadersListener i
  | onBeforeRedirect => onBeforeRedirectListener i
  | onCompleted => onCompletedListener i
  end.

(** ** The browser side of listener registration *)

(** Evaluating an arrow function inside [run] yields a new function object. *)
Definition new_arrow (crawl : Z) (js all : bool) : M Listener := fun s =>
  ({| listener_id := allocated s; crawlID := crawl;
      saveJavascript := js; saveAllContent := all |},
   {| this := this s; subscriptions := subscriptions s;
      allocated := S (allocated s); trace := trace s |}).

(** [browser.webRequest.<ch>.addListener(l, filter, extraInfoSpec)]: a
    function that is registered already is not registered again. *)
Definition browser_addListener (sb : Subscription) : M unit := fun s =>
  (tt, {| this := this s;
          subscriptions :=
            if existsb (holds (sub_channel sb) (sub_listener sb)) (subscriptions s)
            then subscriptions s else subscriptions s ++ [sb];
          allocated := allocated s;
          trace := trace s ++ [addListener sb] |}).

(** [browser.webRequest.<ch>.removeListener(l)]: removing a function that
    is not registered does nothing. *)
Definition browser_removeListener (ch : Channel) (l : Listener) : M unit := fun s =>
  (tt, {| this := this s;
          subscriptions :=
            List.filter (fun sb => negb (holds ch l sb)) (subscriptions s);
          allocated := allocated s;
          trace := trace s ++ [removeListener ch l] |}).

(** The listeners the browser would call for an event on [ch]. *)
Definition active (ch : Channel) (s : State) : list Listener :=
  map sub_listener
      (List.filter (fun sb => bool_decide (sub_channel sb = ch)) (subscriptions s)).

(** ** Collaborators

    Code the instrument calls but does not contain. *)

(** lib/string-utils.ts and lib/http-post-parser.ts.  [escapeString] is
    also applied to values that may be [undefined]. *)
Class Lib := {
  escapeString : option string -> string;
  boolToInt : bool -> Z;
  parsePostRequest : OnBeforeRequest.details -> string -> ParsedPostRequest;
}.

(** Built-ins of the JavaScript runtime. *)
Class JsRuntime := {
  (** [new Date(t).toISOString()] *)
  toISOString : Z -> string;
  (** [JSON.stringify] of the array of header pairs *)
  JSON_stringify_headers : list (string * string) -> string;
  (** [JSON.stringify] of the frame ancestors *)
  JSON_stringify_frameAncestors : list FrameAncestor -> string;
  (** [new URL(u).origin] *)
  URL_origin : string -> string;
  (** [s.toLowerCase()] *)
  toLowerCase : string -> string;
  (** the [TypeError] thrown by a method call on [undefined] *)
  undefined_has_no_properties : JsError;
}.

(** What the awaited promises settle to.  These are answers of the
    environment: the instrument only awaits them.  An [async] method is run
    from its first statement to its last with these answers filled in; what
    other events do to the buffers while it is suspended reaches it through
    the answers only, and its calls appear in the trace without calls of
    other handlers in between. *)
Class Host := {
  (** [await pendingRequest.resolvedWithinTimeout(ms)], then the awaited
      body-stage fragment: [Some d] when the buffer of the transaction was
      populated by the deadline, [None] when the wait timed out. *)
  awaitResolved : Z -> PendingRequest.t -> Z -> option OnBeforeRequest.details;
  (** [await browser.tabs.get(tabId)]: fulfilled with the tab, or rejected
      (the id of no tab, such as [-1] for a request made outside a tab, or a
      tab closed in the meantime) *)
  await_tabs_get : Z -> JsError + Tab;
  (** [await responseBodyListener.getResponseBody()]: rejected or fulfilled *)
  getResponseBody : ResponseBodyListener -> JsError + string;
  (** [await responseBodyListener.getContentHash()] *)
  getContentHash : ResponseBodyListener -> JsError + string;
}.

Definition newline : string := String (Ascii.ascii_of_nat 10) EmptyString.

Section Instrument.

Context `{Lib} `{JsRuntime} `{Host}.

(** *** [run]: types, filter and the extension test *)

Definition allTypes : list string :=
  [ "beacon"; "csp_report"; "font"; "image"; "imageset"; "main_frame";
    "media"; "object"; "object_subrequest"; "ping"; "script";
    "stylesheet"; "sub_frame"; "web_manifest"; "websocket"; "xbl";
    "xml_dtd"; "xmlhttprequest"; "xslt"; "other" ].

Definition filter : RequestFilter :=
  {| urls := ["<all_urls>"]; types := allTypes |}.

(** [details.originUrl && details.originUrl.indexOf("moz-extension://") > -1],
    as a condition. *)
Definition requestStemsFromExtension (originUrl : option string) : bool :=
  match originUrl with
  | Some u =>
      JsString.truthy (Some u)
      && (JsString.indexOf u "moz-extension://" >? -1)
  | None => false
  end.

(** *** Buffers *)

Definition getPendingRequest (requestId : Z) : M PendingRequest.t :=
  i ← read;
  match pendingRequests i !! requestId with
  | Some p => mret p
  | None =>
      write (set_pendingRequests
               (<[requestId := PendingRequest.new]> (pendingRequests i)) i);;
      mret PendingRequest.new
  end.

Definition getPendingResponse (requestId : Z) : M PendingResponse.t :=
  i ← read;
  match pendingResponses i !! requestId with
  | Some p => mret p
  | None =>
      write (set_pendingResponses
               (<[requestId := PendingResponse.new]> (pendingResponses i)) i);;
      mret PendingResponse.new
  end.

(** A method call on a buffer object changes the object the map holds. *)
Definition on_pendingRequest (requestId : Z)
    (f : PendingRequest.t -> PendingRequest.t) : M unit :=
  i ← read;
  write (set_pendingRequests (alter f requestId (pendingRequests i)) i).

Definition on_pendingResponse (requestId : Z)
    (f : PendingResponse.t -> PendingResponse.t) : M unit :=
  i ← read;
  write (set_pendingResponses (alter f requestId (pendingResponses i)) i).

Definition isJS (resourceType : string) : bool :=
  String.eqb resourceType "script".

(** [pendingResponse.addResponseResponseBodyListener(details)] *)
Definition addResponseResponseBodyListener
    (details : OnBeforeRequest.details) : M unit :=
  call (new_ResponseBodyListener details);;
  on_pendingResponse (OnBeforeRequest.requestId details)
    (PendingResponse.addResponseResponseBodyListener details).

(** *** Request assembler *)

(** One step of the [requestHeaders.map] callback, on the three variables
    it assigns: [headers], [encodingType], [isOcsp]. *)
Definition scanHeader (acc : list (string * string) * string * bool)
    (requestHeader : HttpHeader) : list (string * string) * string * bool :=
  let '(headers, encodingType, isOcsp) := acc in
  let header_pair :=
    (escapeString (Some (name requestHeader)),
     escapeString (Some (value requestHeader))) in
  let headers := headers ++ [header_pair] in
  if String.eqb (name requestHeader) "Content-Type" then
    let encodingType := value requestHeader in
    if negb (Z.eqb (JsString.indexOf encodingType "application/ocsp-request") (-1))
    then (headers, encodingType, true)
    else (headers, encodingType, isOcsp)
  else (headers, encodingType, isOcsp).

Definition scanRequestHeaders (requestHeaders : option (list HttpHeader))
  : list (string * string) * string * bool :=
  match requestHeaders with
  | Some hs => fold_left scanHeader hs ([], "", false)
  | None => ([], "", false)
  end.

Definition contentHeaders : list string :=
  ["Content-Type"; "Content-Disposition"; "Content-Length"].

(** The [for (const name in postObj.post_headers)] loop: the pairs it
    pushes. *)
Definition recoveredHeaders (post_headers : list (string * string))
  : list (string * string) :=
  flat_map
    (fun '(name, v) =>
       if JsString.includes contentHeaders name
       then [(escapeString (Some name), escapeString (Some v))]
       else [])
    post_headers.

Definition timeout_message : string :=
  "Pending request timed out waiting for data from both onBeforeRequest and onBeforeSendHeaders events".

(** The [if (requestMethod === "POST" && !isOcsp)] block: it may push to
    [headers] and may assign [update.post_body]. *)
Definition processPost (details : OnBeforeSendHeaders.details)
    (encodingType : string) (headers : list (string * string))
  : M (list (string * string) * option string) :=
  let requestId := OnBeforeSendHeaders.requestId details in
  pendingRequest ← getPendingRequest requestId;
  call (wait_resolvedWithinTimeout requestId 1000);;
  match awaitResolved requestId pendingRequest 1000 with
  | None =>
      call (logError timeout_message);;
      mret (headers, None)
  | Some onBeforeRequestEventDetails =>
      match OnBeforeRequest.requestBody onBeforeRequestEventDetails with
      | Some _ =>
          call (run_parsePostRequest onBeforeRequestEventDetails encodingType);;
          let postObj :=
            parsePostRequest onBeforeRequestEventDetails encodingType in
          let headers :=
            match post_headers postObj with
            | Some ph => headers ++ recoveredHeaders ph
            | None => headers
            end in
          mret (headers, parsed_post_body postObj)
      | None => mret (headers, None)
      end
  end.

Definition origin_of (u : option string) : option string :=
  if JsString.truthy u then URL_origin <$> u else None.

(** The record [update] as it stands when it is sent: [headers] and
    [post_body] are what the header scan and the POST block left, [tab] is
    the answer of the tab lookup. *)
Definition requestUpdate (details : OnBeforeSendHeaders.details) (crawlID : Z)
    (headers : list (string * string)) (post_body : option string)
    (tab : Tab) : HttpRequest.t :=
  let requestMethod := OnBeforeSendHeaders.method details in
  let isXHR := String.eqb (OnBeforeSendHeaders.type details) "xmlhttprequest" in
  let isFullPageLoad := Z.eqb (OnBeforeSendHeaders.frameId details) 0 in
  let isFrameLoad := String.eqb (OnBeforeSendHeaders.type details) "sub_frame" in
  let triggeringOrigin := origin_of (OnBeforeSendHeaders.originUrl details) in
  let loadingOrigin := origin_of (OnBeforeSendHeaders.documentUrl details) in
  {| HttpRequest.crawl_id := crawlID;
     HttpRequest.request_id := OnBeforeSendHeaders.requestId details;
     HttpRequest.url := escapeString (Some (OnBeforeSendHeaders.url details));
     HttpRequest.method := escapeString (Some requestMethod);
     HttpRequest.time_stamp := toISOString (OnBeforeSendHeaders.timeStamp details);
     HttpRequest.post_body := post_body;
     HttpRequest.headers := JSON_stringify_headers headers;
     HttpRequest.is_XHR := boolToInt isXHR;
     HttpRequest.is_full_page := boolToInt isFullPageLoad;
     HttpRequest.is_frame_load := boolToInt isFrameLoad;
     HttpRequest.triggering_origin := escapeString triggeringOrigin;
     HttpRequest.loading_origin := escapeString loadingOrigin;
     HttpRequest.loading_href :=
       escapeString (OnBeforeSendHeaders.documentUrl details);
     HttpRequest.resource_type := OnBeforeSendHeaders.type details;
     HttpRequest.top_level_url := escapeString (tab_url tab);
     HttpRequest.parent_frame_id := OnBeforeSendHeaders.parentFrameId details;
     HttpRequest.frame_ancestors :=
       escapeString (JSON_stringify_frameAncestors
                       <$> OnBeforeSendHeaders.frameAncestors details) |}.

Definition onBeforeSendHeadersHandler
    (details : OnBeforeSendHeaders.details) (crawlID : Z) : M unit :=
  let requestMethod := OnBeforeSendHeaders.method details in
  let '(headers, encodingType, isOcsp) :=
    scanRequestHeaders (OnBeforeSendHeaders.requestHeaders details) in
  '(headers, post_body) ←
    (if String.eqb requestMethod "POST" && negb isOcsp
     then processPost details encodingType headers
     else mret (headers, None));
  call (tabs_get (OnBeforeSendHeaders.tabId details));;
  match await_tabs_get (OnBeforeSendHeaders.tabId details) with
  | inr tab =>
      call (saveRecord "http_requests"
              (RequestRow (requestUpdate details crawlID headers post_body tab)))
  | inl _ =>
      (* the rejected [await] is not caught: the method ends here *)
      mret tt
  end.

(** The calls of the assembler's last statements, from the tab lookup on:
    the record is sent when the lookup is answered and is not sent when it
    is rejected. *)
Definition lookup_and_save (details : OnBeforeSendHeaders.details) (crawlID : Z)
    (headers : list (string * string)) (post_body : option string)
  : list Call :=
  tabs_get (OnBeforeSendHeaders.tabId details)
  :: match await_tabs_get (OnBeforeSendHeaders.tabId details) with
     | inr tab =>
         [saveRecord "http_requests"
            (RequestRow (requestUpdate details crawlID headers post_body tab))]
     | inl _ => []
     end.

(** *** Redirect recorder *)

Definition onBeforeRedirectHandler
    (details : OnBeforeRedirect.details) (crawlID : Z) : M unit :=
  let httpRedirect :=
    {| HttpRedirect.crawl_id := crawlID;
       HttpRedirect.old_request_id := OnBeforeRedirect.requestId details;
       HttpRedirect.new_request_id := None;
       HttpRedirect.time_stamp := toISOString (OnBeforeRedirect.timeStamp details) |} in
  call (saveRecord "http_redirects" (RedirectRow httpRedirect)).

(** *** Response assembler *)

(** The body of the [try] block up to the sink calls: the listener is read
    from the buffer and asked for the body, then for the hash; the first
    failure is what the [catch] clause receives. *)
Definition retrieve (pendingResponse : PendingResponse.t)
  : JsError + string * string :=
  match PendingResponse.responseBodyListener pendingResponse with
  | None => inl undefined_has_no_properties
  | Some responseBodyListener =>
      match getResponseBody responseBodyListener with
      | inl err => inl err
      | inr respBody =>
          match getContentHash responseBodyListener with
          | inl err => inl err
          | inr contentHash => inr (respBody, contentHash)
          end
      end
  end.

Definition retrieval_message (err : JsError) : string :=
  "Unable to retrieve response body."
  +:+ "Likely caused by a programming error. Error Message:"
  +:+ err_name err +:+ err_message err +:+ newline +:+ err_stack err.

Definition logWithResponseBody
    (details : OnCompleted.details) (update : HttpResponse.t) : M unit :=
  pendingResponse ← getPendingResponse (OnCompleted.requestId details);
  match retrieve pendingResponse with
  | inr (respBody, contentHash) =>
      call (saveContent (escapeString (Some respBody))
                        (escapeString (Some contentHash)));;
      call (saveRecord "http_responses" (ResponseRow update))
  | inl err =>
      call (logError (retrieval_message err));;
      call (saveRecord "http_responses"
              (ResponseRow (HttpResponse.set_content_hash "<error>" update)))
  end.

(** One step of the [responseHeaders.map] callback, on [headers] and
    [location]. *)
Definition scanResponseHeader (acc : list (string * string) * string)
    (responseHeader : HttpHeader) : list (string * string) * string :=
  let '(headers, location) := acc in
  let header_pair :=
    (escapeString (Some (name responseHeader)),
     escapeString (Some (value responseHeader))) in
  (headers ++ [header_pair],
   if String.eqb (toLowerCase (name responseHeader)) "location"
   then value responseHeader else location).

(** The record as [onCompletedHandler] has built it when it chooses how to
    log it: [content_hash] has not been assigned. *)
Definition responseUpdate (details : OnCompleted.details) (crawlID : Z)
  : HttpResponse.t :=
  let '(headers, location) :=
    match OnCompleted.responseHeaders details with
    | Some hs => fold_left scanResponseHeader hs ([], "")
    | None => ([], "")
    end in
  {| HttpResponse.crawl_id := crawlID;
     HttpResponse.request_id := OnCompleted.requestId details;
     HttpResponse.is_cached := boolToInt (OnCompleted.fromCache details);
     HttpResponse.url := escapeString (Some (OnCompleted.url details));
     HttpResponse.method := escapeString (Some (OnCompleted.method details));
     HttpResponse.response_status := OnCompleted.statusCode details;
     HttpResponse.response_status_text :=
       escapeString (Some (OnCompleted.statusLine details));
     HttpResponse.time_stamp := toISOString (OnCompleted.timeStamp details);
     HttpResponse.headers := JSON_stringify_headers headers;
     HttpResponse.location := escapeString (Some location);
     HttpResponse.content_hash := None |}.

Definition onCompletedHandler (details : OnCompleted.details)
    (crawlID : Z) (saveJavascript saveAllContent : bool) : M unit :=
  let update := responseUpdate details crawlID in
  if saveAllContent then logWithResponseBody details update
  else if saveJavascript && isJS (OnCompleted.type details)
  then logWithResponseBody details update
  else call (saveRecord "http_responses" (ResponseRow update)).

(** *** The four listeners

    Each is the body of the arrow function [run] stores in the field of
    the same name; [l] carries what the function closed over. *)

Definition blockingResponseThatDoesNothing : BlockingResponse :=
  {| cancel := None; redirectUrl := None;
     br_requestHeaders := None; br_responseHeaders := None |}.

Definition onBeforeRequestListener_body (l : Listener)
    (details : OnBeforeRequest.details) : M BlockingResponse :=
  if requestStemsFromExtension (OnBeforeRequest.originUrl details)
  then mret blockingResponseThatDoesNothing
  else
    let requestId := OnBeforeRequest.requestId details in
    getPendingRequest requestId;;
    on_pendingRequest requestId
      (PendingRequest.resolveBeforeRequestEventDetails details);;
    getPendingResponse requestId;;
    on_pendingResponse requestId
      (PendingResponse.resolveBeforeRequestEventDetails details);;
    (if saveAllContent l then addResponseResponseBodyListener details
     else if saveJavascript l && isJS (OnBeforeRequest.type details)
     then addResponseResponseBodyListener details
     else mret tt);;
    mret blockingResponseThatDoesNothing.

Definition onBeforeSendHeadersListener_body (l : Listener)
    (details : OnBeforeSendHeaders.details) : M unit :=
  if requestStemsFromExtension (OnBeforeSendHeaders.originUrl details)
  then mret tt
  else
    let requestId := OnBeforeSendHeaders.requestId details in
    getPendingRequest requestId;;
    on_pendingRequest requestId
      (PendingRequest.resolveOnBeforeSendHeadersEventDetails details);;
    onBeforeSendHeadersHandler details (crawlID l).

Definition onBeforeRedirectListener_body (l : Listener)
    (details : OnBeforeRedirect.details) : M unit :=
  if requestStemsFromExtension (OnBeforeRedirect.originUrl details)
  then mret tt
  else onBeforeRedirectHandler details (crawlID l).

Definition onCompletedListener_body (l : Listener)
    (details : OnCompleted.details) : M unit :=
  if requestStemsFromExtension (OnCompleted.originUrl details)
  then mret tt
  else
    let requestId := OnCompleted.requestId details in
    getPendingResponse requestId;;
    on_pendingResponse requestId
      (PendingResponse.resolveOnCompletedEventDetails details);;
    onCompletedHandler details (crawlID l) (saveJavascript l) (saveAllContent l).

(** *** [run] and [cleanup] *)

(** One assignment [this.<ch>Listener = details => ...] followed by the
    [addListener] call on that channel. *)
Definition install (ch : Channel) (crawlID : Z)
    (saveJavascript saveAllContent : bool) (extraInfoSpec : list string)
  : M unit :=
  l ← new_arrow crawlID saveJavascript saveAllContent;
  i ← read;
  write (set_listener ch l i);;
  browser_addListener
    {| sub_channel := ch; sub_listener := l;
       sub_filter := filter; sub_extraInfoSpec := extraInfoSpec |}.

Definition run (crawlID : Z) (saveJavascript saveAllContent : bool) : M unit :=
  install onBeforeRequest crawlID saveJavascript saveAllContent
    (if saveJavascript || saveAllContent
     then ["requestBody"; "blocking"] else ["requestBody"]);;
  install onBeforeSendHeaders crawlID saveJavascript saveAllContent
    ["requestHeaders"];;
  install onBeforeRedirect crawlID saveJavascript saveAllContent
    ["responseHeaders"];;
  install onCompleted crawlID saveJavascript saveAllContent
    ["responseHeaders"].

(** One [if (this.<ch>Listener) { ... removeListener(this.<ch>Listener) }] *)
Definition uninstall (ch : Channel) : M unit :=
  i ← read;
  match listener_field ch i with
  | Some l => browser_removeListener ch l
  | None => mret tt
  end.

Definition cleanup : M unit :=
  uninstall onBeforeRequest;;
  uninstall onBeforeSendHeaders;;
  uninstall onBeforeRedirect;;
  uninstall onCompleted.

(** *** Events as the browser delivers them *)

Inductive Event :=
| BeforeRequest (details : OnBeforeRequest.details)
| BeforeSendHeaders (details : OnBeforeSendHeaders.details)
| BeforeRedirect (details : OnBeforeRedirect.details)
| Completed (details : OnCompleted.details).

Definition channel_of (e : Event) : Channel :=
  match e with
  | BeforeRequest _ => onBeforeRequest
  | BeforeSendHeaders _ => onBeforeSendHeaders
  | BeforeRedirect _ => onBeforeRedirect
  | Completed _ => onCompleted
  end.

Definition originUrl_of (e : Event) : option string :=
  match e with
  | BeforeRequest d => OnBeforeRequest.originUrl d
  | BeforeSendHeaders d => OnBeforeSendHeaders.originUrl d
  | BeforeRedirect d => OnBeforeRedirect.originUrl d
  | Completed d => OnCompleted.originUrl d
  end.

(** The browser calls listener [l] with event [e]. *)
Definition invoke (l : Listener) (e : Event) : M unit :=
  match e with
  | BeforeRequest d => onBeforeRequestListener_body l d;; mret tt
  | BeforeSendHeaders d => onBeforeSendHeadersListener_body l d
  | BeforeRedirect d => onBeforeRedirectListener_body l d
  | Completed d => onCompletedListener_body l d
  end.

(** The browser delivers [e] to every listener registered on its channel. *)
Definition deliver (e : Event) : M unit := fun s =>
  fold_left (fun acc l => invoke l e (snd acc)) (active (channel_of e) s) (tt, s).

(** *** Vocabulary for stating what the assemblers do *)

(** The pair pushed to [headers] for one header of the event. *)
Definition header_pair (h : HttpHeader) : string * string :=
  (escapeString (Some (name h)), escapeString (Some (value h))).

Definition escaped_pair (p : string * string) : string * string :=
  (escapeString (Some (fst p)), escapeString (Some (snd p))).

(** The event's header list; an event without [requestHeaders] has none. *)
Definition headers_of (details : OnBeforeSendHeaders.details) : list HttpHeader :=
  default [] (OnBeforeSendHeaders.requestHeaders details).

(** The encoding type in the specification's words: the value of the
    header whose name is exactly [Content-Type] (the last one, should
    there be several), the empty string when there is none. *)
Definition encodingType_spec (hs : list HttpHeader) : string :=
  match last (List.filter (fun h => bool_decide (name h = "Content-Type")) hs) with
  | Some h => value h
  | None => ""
  end.

(** The test the header scan makes on each header to set [isOcsp]. *)
Definition ocsp_test (h : HttpHeader) : bool :=
  String.eqb (name h) "Content-Type"
  && negb (Z.eqb (JsString.indexOf (value h) "application/ocsp-request") (-1)).

(** An OCSP request in the specification's words: a header named exactly
    [Content-Type] whose value contains [application/ocsp-request]. *)
Definition isOcspRequest (hs : list HttpHeader) : Prop :=
  exists h, In h hs /\ name h = "Content-Type"
            /\ JsString.occurs "application/ocsp-request" (value h).

(** The allow-list in the specification's words. *)
Definition allowed (p : string * string) : bool :=
  bool_decide (fst p = "Content-Type" \/ fst p = "Content-Disposition"
               \/ fst p = "Content-Length").

(** The capture policy: the condition under which both the pre-request
    listener and [onCompletedHandler] take a capturing branch. *)
Definition capturePolicy (saveJavascript saveAllContent : bool)
    (resourceType : string) : bool :=
  saveAllContent || (saveJavascript && isJS resourceType).

(** Retrieval of body and hash fails: there is no listener on the buffer,
    or the listener rejects the request for the body or for the hash. *)
Definition captureFails (p : PendingResponse.t) : Prop :=
  match PendingResponse.responseBodyListener p with
  | None => True
  | Some l => (exists e, getResponseBody l = inl e)
              \/ (exists e, getContentHash l = inl e)
  end.

(** The state after the browser has delivered the events [evs] in order. *)
Definition after_events (evs : list Event) (s : State) : State :=
  fold_left (fun s e => snd (deliver e s)) evs s.

End Instrument.

(** [s] after the calls [cs] and nothing else. *)
Definition logged (s : State) (cs : list Call) : State :=
  {| this := this s; subscriptions := subscriptions s;
     allocated := allocated s; trace := trace s ++ cs |}.

(** ** A reference environment

    Concrete collaborators, for running the instrument on examples. *)

Module Sample.

Definition quote : string := String (Ascii.ascii_of_nat 34) EmptyString.

(** [n] in decimal, on exactly [w] digits. *)
Fixpoint pad (w : nat) (n : Z) : string :=
  match w with
  | O => ""
  | S w' =>
      pad w' (n / 10)
      +:+ String (Ascii.ascii_of_nat (48 + Z.to_nat (n mod 10))) ""
  end.

(** Proleptic Gregorian date of a day count since 1970-01-01. *)
Definition civil (days : Z) : Z * Z * Z :=
  let z := days + 719468 in
  let era := z / 146097 in
  let doe := z - era * 146097 in
  let yoe := (doe - doe / 1460 + doe / 36524 - doe / 146096) / 365 in
  let doy := doe - (365 * yoe + yoe / 4 - yoe / 100) in
  let mp := (5 * doy + 2) / 153 in
  let d := doy - (153 * mp + 2) / 5 + 1 in
  let m := if (mp <? 10)%Z then mp + 3 else mp - 9 in
  let y := yoe + era * 400 + (if (m <=? 2)%Z then 1 else 0) in
  (y, m, d).

(** [toISOString] for the years 0000 to 9999. *)
Definition iso (t : Z) : string :=
  let '(y, m, d) := civil (t / 86400000) in
  let r := t mod 86400000 in
  pad 4 y +:+ "-" +:+ pad 2 m +:+ "-" +:+ pad 2 d +:+ "T"
  +:+ pad 2 (r / 3600000) +:+ ":" +:+ pad 2 (r / 60000 mod 60) +:+ ":"
  +:+ pad 2 (r / 1000 mod 60) +:+ "." +:+ pad 3 (r mod 1000) +:+ "Z".

(** A string literal of JSON; quotes and backslashes are escaped. *)
Fixpoint json_chars (s : string) : string :=
  match s with
  | EmptyString => ""
  | String c s' =>
      (if (Ascii.eqb c (Ascii.ascii_of_nat 34) || Ascii.eqb c (Ascii.ascii_of_nat 92))%bool
       then String (Ascii.ascii_of_nat 92) (String c "")
       else String c "")
      +:+ json_chars s'
  end.

Definition json_string (s : string) : string := quote +:+ json_chars s +:+ quote.

Definition json_array (items : list string) : string :=
  "[" +:+ String.concat "," items +:+ "]".

Definition lower (s : string) : string :=
  string_rec (fun _ => string) ""
    (fun c _ r =>
       let n := Ascii.nat_of_ascii c in
       String (if (Nat.leb 65 n && Nat.leb n 90)%bool
               then Ascii.ascii_of_nat (n + 32) else c) r) s.

(** Scheme and authority of an absolute URL. *)
Definition origin (u : string) : string :=
  match String.index 0 "://" u with
  | Some i =>
      match String.index (i + 3) "/" u with
      | Some j => String.substring 0 j u
      | None => u
      end
  | None => "null"
  end.

Definition lib : Lib :=
  {| escapeString := default "undefined";
     boolToInt := fun b => if b then 1 else 0;
     parsePostRequest := fun _ encodingType =>
       {| post_headers :=
            Some [("Content-Type", encodingType); ("user", "alice")];
          parsed_post_body := Some "{}" |} |}.

Definition js : JsRuntime :=
  {| toISOString := iso;
     JSON_stringify_headers := fun hs =>
       json_array
         (map (fun p => json_array [json_string (fst p); json_string (snd p)]) hs);
     JSON_stringify_frameAncestors := fun fas =>
       json_array
         (map (fun fa => "{" +:+ json_string "url" +:+ ":"
                         +:+ json_string (fa_url fa) +:+ "}") fas);
     URL_origin := origin;
     toLowerCase := lower;
     undefined_has_no_properties :=
       {| err_name := "TypeError";
          err_message := "responseBodyListener is undefined";
          err_stack := "" |} |}.

(** A host in which a fragment that is not in the buffer when the wait
    starts never arrives, every attached tap delivers [hello], and the tab
    lookup is rejected for the ids that are not ids of tabs. *)
Definition host : Host :=
  {| awaitResolved := fun _ p _ =>
       match PendingRequest.onBeforeRequestEventDetails p,
             PendingRequest.onBeforeSendHeadersEventDetails p with
       | Some d, Some _ => Some d
       | _, _ => None
       end;
     await_tabs_get := fun tabId =>
       if (tabId <? 0)%Z
       then inl {| err_name := "Error";
                   err_message := "Invalid tab ID";
                   err_stack := "" |}
       else inr {| tab_url := Some "https://a.example/" |};
     getResponseBody := fun _ => inr "hello";
     getContentHash := fun _ =>
       inr "2cf24dba5fb0a30e26e83b2ac5b9e29e1b161e5c1fa7425e73043362938b9824" |}.

End Sample.

(** ** Sample events *)

Definition extension_origin : string := "moz-extension://0a1b2c/background.html".

Definition sample_listener (js all : bool) : Listener :=
  {| listener_id := 0; crawlID := 7; saveJavascript := js; saveAllContent := all |}.

Definition sample_beforeRequest (ty : string) (origin : option string)
  : OnBeforeRequest.details :=
  {| OnBeforeRequest.requestId := 42;
     OnBeforeRequest.url := "https://a.example/x";
     OnBeforeRequest.method := "GET";
     OnBeforeRequest.type := ty;
     OnBeforeRequest.timeStamp := 1541116800123;
     OnBeforeRequest.originUrl := origin;
     OnBeforeRequest.requestBody := None |}.

Definition sample_redirect (origin : option string) : OnBeforeRedirect.details :=
  {| OnBeforeRedirect.requestId := 42;
     OnBeforeRedirect.timeStamp := 1541116800123;
     OnBeforeRedirect.originUrl := origin |}.

Definition sample_headers (method : string) (hs : list HttpHeader)
  : OnBeforeSendHeaders.details :=
  {| OnBeforeSendHeaders.requestId := 42;
     OnBeforeSendHeaders.url := "https://a.example/api";
     OnBeforeSendHeaders.method := method;
     OnBeforeSendHeaders.type := "xmlhttprequest";
     OnBeforeSendHeaders.timeStamp := 1541116800123;
     OnBeforeSendHeaders.frameId := 0;
     OnBeforeSendHeaders.parentFrameId := -1;
     OnBeforeSendHeaders.tabId := 3;
     OnBeforeSendHeaders.originUrl := Some "https://a.example/form";
     OnBeforeSendHeaders.documentUrl := Some "https://a.example/form";
     OnBeforeSendHeaders.requestHeaders := Some hs;
     OnBeforeSendHeaders.frameAncestors := Some [] |}.

(** A request that no tab made: the browser gives it the tab id [-1]. *)
Definition sample_headers_outside_tab (method : string) (hs : list HttpHeader)
  : OnBeforeSendHeaders.details :=
  {| OnBeforeSendHeaders.requestId := 43;
     OnBeforeSendHeaders.url := "https://a.example/api";
     OnBeforeSendHeaders.method := method;
     OnBeforeSendHeaders.type := "xmlhttprequest";
     OnBeforeSendHeaders.timeStamp := 1541116800123;
     OnBeforeSendHeaders.frameId := 0;
     OnBeforeSendHeaders.parentFrameId := -1;
     OnBeforeSendHeaders.tabId := -1;
     OnBeforeSendHeaders.originUrl := None;
     OnBeforeSendHeaders.documentUrl := None;
     OnBeforeSendHeaders.requestHeaders := Some hs;
     OnBeforeSendHeaders.frameAncestors := None |}.

Definition sample_upload : OnBeforeRequest.details :=
  {| OnBeforeRequest.requestId := 42;
     OnBeforeRequest.url := "https://a.example/api";
     OnBeforeRequest.method := "POST";
     OnBeforeRequest.type := "xmlhttprequest";
     OnBeforeRequest.timeStamp := 1541116800100;
     OnBeforeRequest.originUrl := Some "https://a.example/form";
     OnBeforeRequest.requestBody :=
       Some {| rb_error := None;
               formData := Some [("user", ["alice"])];
               raw := None |} |}.

Definition sample_completed (ty : string) : OnCompleted.details :=
  {| OnCompleted.requestId := 42;
     OnCompleted.url := "https://a.example/x";
     OnCompleted.method := "GET";
     OnCompleted.type := ty;
     OnCompleted.timeStamp := 1541116800456;
     OnCompleted.fromCache := true;
     OnCompleted.statusCode := 200;
     OnCompleted.statusLine := "HTTP/1.1 200 OK";
     OnCompleted.originUrl := None;
     OnCompleted.responseHeaders := Some [] |}.

Definition form_header : HttpHeader :=
  {| name := "Content-Type"; value := "application/x-www-form-urlencoded" |}.

Definition ocsp_header : HttpHeader :=
  {| name := "Content-Type"; value := "application/ocsp-request" |}.

(** The state the assembler finds when the body-stage event of transaction
    42 came first and the headers listener has filled its slot. *)
Definition upload_seen : State :=
  let s1 := snd (@invoke Sample.lib Sample.js Sample.host
                   (sample_listener false false)
                   (BeforeRequest sample_upload) initial) in
  snd ((getPendingRequest 42;;
        on_pendingRequest 42
          (PendingRequest.resolveOnBeforeSendHeadersEventDetails
             (sample_headers "POST" [form_header]))) s1).

(** The state the assembler finds when a body-stage event without upload
    came first and the headers listener has filled its slot. *)
Definition empty_upload_seen : State :=
  let s1 := snd (@invoke Sample.lib Sample.js Sample.host
                   (sample_listener false false)
                   (BeforeRequest (sample_beforeRequest "xmlhttprequest" None))
                   initial) in
  snd ((getPendingRequest 42;;
        on_pendingRequest 42
          (PendingRequest.resolveOnBeforeSendHeadersEventDetails
             (sample_headers "POST" [form_header]))) s1).

(** ** Vocabulary for stating what [cleanup] does *)

Definition channels : list Channel :=
  [onBeforeRequest; onBeforeSendHeaders; onBeforeRedirect; onCompleted].

(** The [removeListener] calls [cleanup] makes on an instrument with fields
    as in [i], in order. *)
Definition removals (i : HttpInstrument) : list Call :=
  flat_map
    (fun ch => match listener_field ch i with
               | Some l => [removeListener ch l]
               | None => []
               end)
    channels.

(** Subscription [sb] is none of the listeners held in the fields of [i]. *)
Definition foreign (i : HttpInstrument) (sb : Subscription) : bool :=
  forallb
    (fun ch => match listener_field ch i with
               | Some l => negb (holds ch l sb)
               | None => true
               end)
    channels.

(** An instrument on which [run] was never called. *)
Definition never_run (pr : gmap Z PendingRequest.t) (ps : gmap Z PendingResponse.t)
  : HttpInstrument :=
  {| pendingRequests := pr; pendingResponses := ps;
     onBeforeRequestListener := None; onBeforeSendHeadersListener := None;
     onBeforeRedirectListener := None; onCompletedListener := None |}.

(** The registrations and listener fields of two states agree. *)
Definition same_wiring (s s' : State) : Prop :=
  subscriptions s' = subscriptions s
  /\ allocated s' = allocated s
  /\ forall ch, listener_field ch (this s') = listener_field ch (this s).

(** A method that changes neither registrations nor listener fields. *)
Definition preserves_wiring {A} (m : M A) : Prop :=
  forall s, same_wiring s (snd (m s)).

(** ** Vocabulary for stating what event handling does to buffers and sink *)

Definition requestId_of (e : Event) : Z :=
  match e with
  | BeforeRequest d => OnBeforeRequest.requestId d
  | BeforeSendHeaders d => OnBeforeSendHeaders.requestId d
  | BeforeRedirect d => OnBeforeRedirect.requestId d
  | Completed d => OnCompleted.requestId d
  end.

(** The [saveRecord] calls of a trace, in order. *)
Definition saved (tr : list Call) : list (string * Row) :=
  flat_map (fun c => match c with
                     | saveRecord table row => [(table, row)]
                     | _ => []
                     end) tr.

(** The [saveContent] calls of a trace, in order. *)
Definition stored (tr : list Call) : list (string * string) :=
  flat_map (fun c => match c with
                     | saveContent content contentHash => [(content, contentHash)]
                     | _ => []
                     end) tr.

(** The [logError] calls of a trace, in order. *)
Definition errors (tr : list Call) : list string :=
  flat_map (fun c => match c with
                     | logError message => [message]
                     | _ => []
                     end) tr.

(** Between [s] and [s'] the buffers of every transaction other than [id]
    are the same, and a buffer that [id] had is still there. *)
Definition buffers_kept_except (id : Z) (s s' : State) : Prop :=
  (forall id', id' <> id ->
     pendingRequests (this s') !! id' = pendingRequests (this s) !! id'
     /\ pendingResponses (this s') !! id' = pendingResponses (this s) !! id')
  /\ (is_Some (pendingRequests (this s) !! id)
      -> is_Some (pendingRequests (this s') !! id))
  /\ (is_Some (pendingResponses (this s) !! id)
      -> is_Some (pendingResponses (this s') !! id)).

Definition keeps_buffers_except {A} (id : Z) (m : M A) : Prop :=
  forall s, buffers_kept_except id s (snd (m s)).

(** Every registered function was created before the next one to be
    created: listener identities are not reused. *)
Definition identities_fresh (s : State) : Prop :=
  Forall (fun sb => (listener_id (sub_listener sb) < allocated s)%nat)
         (subscriptions s).

Definition channel_index (ch : Channel) : nat :=
  match ch with
  | onBeforeRequest => 0
  | onBeforeSendHeaders => 1
  | onBeforeRedirect => 2
  | onCompleted => 3
  end.

(** The arrow function [run] creates for channel [ch] when [n] functions
    had been created before the call. *)
Definition run_listener (crawl : Z) (js all : bool) (n : nat) (ch : Channel)
  : Listener :=
  {| listener_id := channel_index ch + n; crawlID := crawl;
     saveJavascript := js; saveAllContent := all |}.

(** The registration [run] makes on channel [ch]. *)
Definition run_subscription (crawl : Z) (js all : bool) (n : nat) (ch : Channel)
  : Subscription :=
  {| sub_channel := ch;
     sub_listener := run_listener crawl js all n ch;
     sub_filter := filter;
     sub_extraInfoSpec :=
       match ch with
       | onBeforeRequest =>
           if js || all then ["requestBody"; "blocking"] else ["requestBody"]
       | onBeforeSendHeaders => ["requestHeaders"]
       | onBeforeRedirect => ["responseHeaders"]
       | onCompleted => ["responseHeaders"]
       end |}.

(** The instrument after [run]: the four listener fields hold the arrow
    functions of that call, the buffers are as before. *)
Definition with_run_listeners (crawl : Z) (js all : bool) (n : nat)
    (i : HttpInstrument) : HttpInstrument :=
  {| pendingRequests := pendingRequests i;
     pendingResponses := pendingResponses i;
     onBeforeRequestListener := Some (run_listener crawl js all n onBeforeRequest);
     onBeforeSendHeadersListener :=
       Some (run_listener crawl js all n onBeforeSendHeaders);
     onBeforeRedirectListener := Some (run_listener crawl js all n onBeforeRedirect);
     onCompletedListener := Some (run_listener crawl js all n onCompleted) |}.

(** An instrument that was never run in a browser without registrations. *)
Definition fresh (pr : gmap Z PendingRequest.t) (ps : gmap Z PendingResponse.t)
    (n : nat) (tr : list Call) : State :=
  {| this := never_run pr ps; subscriptions := []; allocated := n; trace := tr |}.

(** The redirect target in the words of the response assembler's comment:
    the value of the last header whose lower-cased name is [location], the
    empty string when there is none. *)
Definition location_spec `{JsRuntime} (hs : list HttpHeader) : string :=
  match last (List.filter
                (fun h => bool_decide (toLowerCase (name h) = "location")) hs) with
  | Some h => value h
  | None => ""
  end.

(** * Script instrumentation (src/background/javascript-instrument.ts) *)

Module JavascriptInstrument.

(** [msg.data]: the properties [processCallsAndValues] reads.  A property
    the content script did not set is [None]. *)
Module Data.
Record t := {
  scriptUrl : option string;
  scriptLine : option string;
  scriptCol : option string;
  funcName : option string;
  scriptLocEval : option string;
  callStack : option string;
  symbol : option string;
  operation : option string;
  value : option string;
  timeStamp : option string;
  args : option (list string);
}.
End Data.

Record Message := {
  namespace : option string;
  type : option string;
  data : option Data.t;
}.

(** [runtime.MessageSender]: [tab] is there only for a sender in a tab. *)
Record MessageSender := {
  url : option string;
  tab : option Tab;
}.

(** The row of the [javascript] table (schema.ts). *)
Module JavascriptOperation.
Record t := {
  crawl_id : Z;
  script_url : string;
  script_line : string;
  script_col : string;
  func_name : string;
  script_loc_eval : string;
  call_stack : string;
  symbol : string;
  operation : string;
  value : string;
  time_stamp : option string;
  document_url : string;
  top_level_url : string;
  arguments : option string;
}.
End JavascriptOperation.

(** The arrow function stored in [onMessageListener]: its identity and the
    [crawlID] it closes over. *)
Record Listener := { listener_id : nat; crawlID : Z }.

Inductive Call :=
| saveRecord (table : string) (update : JavascriptOperation.t)
| addListener (l : Listener)
| removeListener (l : Listener).

Record State := {
  onMessageListener : option Listener;
  (** listeners registered on [browser.runtime.onMessage] *)
  subscriptions : list Listener;
  allocated : nat;
  trace : list Call;
}.

(** [new JavascriptInstrument(dataReceiver)] in a browser without listeners. *)
Definition initial : State :=
  {| onMessageListener := None; subscriptions := [];
     allocated := 0%nat; trace := [] |}.

(** How a call of the listener ends. *)
Inductive Outcome :=
| Returned
| Thrown (e : JsError).

(** [JSON.stringify(data.args)] *)
Class JsonArgs := { JSON_stringify_args : list string -> string }.

Definition same_listener (l l' : Listener) : bool :=
  Nat.eqb (listener_id l) (listener_id l').

Section Methods.

Context `{Lib} `{JsRuntime} `{JsonArgs}.

(** The [if (data.operation === "call" && data.args.length > 0)] statement:
    [inr None] leaves [update.arguments] unassigned; reading [length] of an
    [args] that is not there throws. *)
Definition arguments_of (data : Data.t) : JsError + option string :=
  match Data.operation data with
  | Some op =>
      if String.eqb op "call" then
        match Data.args data with
        | Some args =>
            if (0 <? length args)%nat
            then inr (Some (escapeString (Some (JSON_stringify_args args))))
            else inr None
        | None => inl undefined_has_no_properties
        end
      else inr None
  | None => inr None
  end.

Definition processCallsAndValues (crawlID : Z)
    (data : option Data.t) (sender : MessageSender) (s : State)
  : Outcome * State :=
  match data with
  | None => (Thrown undefined_has_no_properties, s)
  | Some data =>
      match tab sender with
      | None => (Thrown undefined_has_no_properties, s)
      | Some sender_tab =>
          match arguments_of data with
          | inl e => (Thrown e, s)
          | inr arguments =>
              let update :=
                {| JavascriptOperation.crawl_id := crawlID;
                   JavascriptOperation.script_url := escapeString (Data.scriptUrl data);
                   JavascriptOperation.script_line := escapeString (Data.scriptLine data);
                   JavascriptOperation.script_col := escapeString (Data.scriptCol data);
                   JavascriptOperation.func_name := escapeString (Data.funcName data);
                   JavascriptOperation.script_loc_eval :=
                     escapeString (Data.scriptLocEval data);
                   JavascriptOperation.call_stack := escapeString (Data.callStack data);
                   JavascriptOperation.symbol := escapeString (Data.symbol data);
                   JavascriptOperation.operation := escapeString (Data.operation data);
                   JavascriptOperation.value := escapeString (Data.value data);
                   JavascriptOperation.time_stamp := Data.timeStamp data;
                   JavascriptOperation.document_url := escapeString (url sender);
                   JavascriptOperation.top_level_url :=
                     escapeString (tab_url sender_tab);
                   JavascriptOperation.arguments := arguments |} in
              (Returned,
               {| onMessageListener := onMessageListener s;
                  subscriptions := subscriptions s;
                  allocated := allocated s;
                  trace := trace s ++ [saveRecord "javascript" update] |})
          end
      end
  end.

(** The body of the arrow function [run] stores in [onMessageListener]. *)
Definition onMessageListener_body (l : Listener)
    (msg : Message) (sender : MessageSender) (s : State) : Outcome * State :=
  if JsString.truthy (namespace msg)
     && bool_decide (namespace msg = Some "javascript-instrumentation")
  then
    match type msg with
    | Some ty =>
        if String.eqb ty "logCall" then
          processCallsAndValues (crawlID l) (data msg) sender s
        else if String.eqb ty "logValue" then
          processCallsAndValues (crawlID l) (data msg) sender s
        else (Returned, s)
    | None => (Returned, s)
    end
  else (Returned, s).

Definition run (crawlID : Z) (s : State) : State :=
  let l := {| listener_id := allocated s; crawlID := crawlID |} in
  {| onMessageListener := Some l;
     subscriptions :=
       if existsb (same_listener l) (subscriptions s)
       then subscriptions s else subscriptions s ++ [l];
     allocated := S (allocated s);
     trace := trace s ++ [addListener l] |}.

Definition cleanup (s : State) : State :=
  match onMessageListener s with
  | Some l =>
      {| onMessageListener := onMessageListener s;
         subscriptions :=
           List.filter (fun l' => negb (same_listener l l')) (subscriptions s);
         allocated := allocated s;
         trace := trace s ++ [removeListener l] |}
  | None => s
  end.

(** The browser delivers a message to every listener registered on
    [runtime.onMessage]; a listener that throws does not stop the others. *)
Definition deliver (msg : Message) (sender : MessageSender) (s : State) : State :=
  fold_left (fun acc l => snd (onMessageListener_body l msg sender acc))
            (subscriptions s) s.

End Methods.

End JavascriptInstrument.

(** ** Sample messages *)

Definition sample_json_args : JavascriptInstrument.JsonArgs :=
  {| JavascriptInstrument.JSON_stringify_args := fun args =>
       Sample.json_array (map Sample.json_string args) |}.

Definition sample_data (operation : string) (args : option (list string))
  : JavascriptInstrument.Data.t :=
  {| JavascriptInstrument.Data.scriptUrl := Some "https://a.example/app.js";
     JavascriptInstrument.Data.scriptLine := Some "10";
     JavascriptInstrument.Data.scriptCol := Some "4";
     JavascriptInstrument.Data.funcName := Some "init";
     JavascriptInstrument.Data.scriptLocEval := Some "";
     JavascriptInstrument.Data.callStack := Some "";
     JavascriptInstrument.Data.symbol := Some "window.navigator.userAgent";
     JavascriptInstrument.Data.operation := Some operation;
     JavascriptInstrument.Data.value := Some "Mozilla/5.0";
     JavascriptInstrument.Data.timeStamp := Some "2018-11-02T00:00:00.123Z";
     JavascriptInstrument.Data.args := args |}.

Definition sample_message (namespace type : string)
    (data : option JavascriptInstrument.Data.t) : JavascriptInstrument.Message :=
  {| JavascriptInstrument.namespace := Some namespace;
     JavascriptInstrument.type := Some type;
     JavascriptInstrument.data := data |}.

Definition sample_sender (tab : option Tab) : JavascriptInstrument.MessageSender :=
  {| JavascriptInstrument.url := Some "https://a.example/frame.html";
     JavascriptInstrument.tab := tab |}.

Definition sample_script_listener : JavascriptInstrument.Listener :=
  {| JavascriptInstrument.listener_id := 0; JavascriptInstrument.crawlID := 7 |}.

(** * Properties *)

(** ** Occurrence of a pattern and [indexOf] *)

Lemma append_nil_l (s : string) : "" +:+ s = s.
Proof. reflexivity. Qed.

Lemma append_cons (c : Ascii.ascii) (s t : string) :
  String c s +:+ t = String c (s +:+ t).
Proof. reflexivity. Qed.

Lemma substring_here (p post : string) :
  String.substring 0 (String.length p) (p +:+ post) = p.
Proof.
  induction p as [|c p IH].
  - rewrite append_nil_l. destruct post; reflexivity.
  - rewrite append_cons. simpl. now rewrite IH.
Qed.

Lemma substring_after (pre p post : string) :
  String.substring (String.length pre) (String.length p) (pre +:+ p +:+ post) = p.
Proof.
  induction pre as [|c pre IH].
  - rewrite append_nil_l. apply substring_here.
  - rewrite append_cons. simpl. exact IH.
Qed.

Lemma substring_prefix (p s : string) :
  String.substring 0 (String.length p) s = p -> exists post, s = p +:+ post.
Proof.
  revert s; induction p as [|c p IH]; intros s Hs; simpl in *.
  - now exists s.
  - destruct s as [|c' s]; simpl in Hs; [discriminate|].
    injection Hs as -> Hs. destruct (IH _ Hs) as [post ->]. now exists post.
Qed.

Lemma substring_occurs (m : nat) (p s : string) :
  String.substring m (String.length p) s = p -> JsString.occurs p s.
Proof.
  revert s; induction m as [|m IH]; intros s Hs.
  - destruct (substring_prefix _ _ Hs) as [post ->]. now exists "", post.
  - destruct s as [|c s].
    + destruct p; simpl in Hs; [|discriminate]. now exists "", "".
    + simpl in Hs. destruct (IH _ Hs) as (pre & post & ->).
      now exists (String c pre), post.
Qed.

(** [s.indexOf(pat) > -1] says exactly that [pat] occurs in [s]. *)
Lemma indexOf_occurs (s pat : string) :
  pat <> "" ->
  (JsString.indexOf s pat >? -1) = true <-> JsString.occurs pat s.
Proof.
  intros Hne. unfold JsString.indexOf. split.
  - destruct (String.index 0 pat s) as [m|] eqn:E; [|discriminate].
    intros _. apply String.index_correct1 in E.
    now apply substring_occurs with m.
  - intros (pre & post & ->).
    destruct (String.index 0 pat (pre +:+ pat +:+ post)) as [m|] eqn:E.
    + apply Z.gtb_lt. lia.
    + exfalso.
      apply (String.index_correct3 0 (String.length pre) _ _ E Hne); [lia|].
      apply substring_after.
Qed.

Lemma indexOf_absent (s pat : string) :
  pat <> "" ->
  Z.eqb (JsString.indexOf s pat) (-1) = negb (JsString.indexOf s pat >? -1).
Proof.
  intros _. unfold JsString.indexOf.
  destruct (String.index 0 pat s) as [m|]; [|reflexivity].
  destruct (Z.eqb_spec (Z.of_nat m) (-1)); [lia|].
  symmetry. apply negb_false_iff, Z.gtb_lt. lia.
Qed.

Lemma occurs_nonempty (pat s : string) :
  pat <> "" -> JsString.occurs pat s -> s <> "".
Proof.
  intros Hne (pre & post & ->) E.
  destruct pre; simpl in E; [|discriminate].
  destruct pat; [congruence|discriminate].
Qed.

(** The extension test is true exactly on origins that contain the
    extension scheme. *)
Lemma requestStemsFromExtension_spec (o : option string) :
  requestStemsFromExtension o = true <->
  exists u, o = Some u /\ JsString.occurs "moz-extension://" u.
Proof.
  unfold requestStemsFromExtension. split.
  - destruct o as [u|]; [|discriminate].
    intros [_ Hi]%andb_prop. exists u; split; [reflexivity|].
    now apply indexOf_occurs in Hi.
  - intros (u & -> & Hu). apply andb_true_intro; split.
    + simpl. apply negb_true_iff, String.eqb_neq.
      now apply occurs_nonempty with "moz-extension://".
    + now apply indexOf_occurs.
Qed.

(** ** Facts about [logged] *)

Lemma logged_nil (s : State) : logged s [] = s.
Proof. destruct s; unfold logged; simpl. now rewrite app_nil_r. Qed.

Lemma logged_logged (s : State) (cs ds : list Call) :
  logged (logged s cs) ds = logged s (cs ++ ds).
Proof. unfold logged; simpl. now rewrite app_assoc. Qed.

Lemma call_logged (c : Call) (s : State) : call c s = (tt, logged s [c]).
Proof. reflexivity. Qed.

Example iso_epoch : Sample.iso 0 = "1970-01-01T00:00:00.000Z".
Proof. reflexivity. Qed.

Example iso_2018 : Sample.iso 1541116800123 = "2018-11-02T00:00:00.123Z".
Proof. vm_compute. reflexivity. Qed.

Example origin_example :
  Sample.origin "https://a.example/x?y=1" = "https://a.example".
Proof. reflexivity. Qed.

Lemma extension_origin_occurs :
  JsString.occurs "moz-extension://" extension_origin.
Proof. now exists "", "0a1b2c/background.html". Defined.

(** ** The gateway's extension filter *)

Section Gateway.

Context `{Lib} `{JsRuntime} `{Host}.

Lemma deliver_fixed (e : Event) (s : State) :
  (forall l, invoke l e s = (tt, s)) -> deliver e s = (tt, s).
Proof.
  intros Hinv. unfold deliver.
  induction (active (channel_of e) s) as [|l ls IH]; simpl; [reflexivity|].
  now rewrite Hinv.
Qed.

(** C8: an event whose [originUrl] contains ["moz-extension://"] is
    discarded on each of the four channels: the listener returns with the
    state as it found it, so no buffer entry is created or resolved, no
    body listener is attached and nothing reaches the sink; the
    pre-request listener still answers with the empty response. *)
Theorem extension_events_discarded
    (l : Listener) (e : Event) (s : State) (u : string) :
  originUrl_of e = Some u ->
  JsString.occurs "moz-extension://" u ->
  invoke l e s = (tt, s)
  /\ deliver e s = (tt, s)
  /\ (forall d, e = BeforeRequest d ->
        onBeforeRequestListener_body l d s
        = (blockingResponseThatDoesNothing, s)).
Proof.
  intros Ho Hu.
  assert (Hx : requestStemsFromExtension (originUrl_of e) = true)
    by (apply requestStemsFromExtension_spec; eauto).
  assert (Hinv : forall l', invoke l' e s = (tt, s)).
  { intros l'. destruct e as [d|d|d|d]; simpl in Hx |- *.
    - unfold onBeforeRequestListener_body. now rewrite Hx.
    - unfold onBeforeSendHeadersListener_body. now rewrite Hx.
    - unfold onBeforeRedirectListener_body. now rewrite Hx.
    - unfold onCompletedListener_body. now rewrite Hx. }
  split; [apply Hinv|]. split; [now apply deliver_fixed|].
  intros d ->. simpl in Hx.
  unfold onBeforeRequestListener_body. now rewrite Hx.
Qed.

(** C10: the pre-request listener answers every event, filtered or not
    and whatever the capture flags, with the empty [BlockingResponse]: it
    asks the browser neither to cancel, nor to redirect, nor to rewrite
    headers. *)
Theorem onBeforeRequest_never_blocks
    (l : Listener) (details : OnBeforeRequest.details) (s : State) :
  let response := fst (onBeforeRequestListener_body l details s) in
  response = blockingResponseThatDoesNothing
  /\ cancel response = None
  /\ redirectUrl response = None
  /\ br_requestHeaders response = None
  /\ br_responseHeaders response = None.
Proof.
  assert (E : fst (onBeforeRequestListener_body l details s)
              = blockingResponseThatDoesNothing).
  { unfold onBeforeRequestListener_body.
    destruct (requestStemsFromExtension _); [reflexivity|].
    unfold mbind, M_bind.
    repeat match goal with
           | |- context [let '(_, _) := ?m in _] => destruct m
           end.
    reflexivity. }
  simpl. rewrite E. repeat split.
Qed.

(** C9: the redirect recorder sends exactly one record, to the table
    [http_redirects], and changes nothing else (the buffers are not
    touched): [old_request_id] is the event's transaction id,
    [new_request_id] is null and [time_stamp] is [toISOString] of the
    event's timestamp. *)
Theorem onBeforeRedirectHandler_emits_link
    (details : OnBeforeRedirect.details) (crawl : Z) (s : State) :
  onBeforeRedirectHandler details crawl s
  = (tt, logged s
           [saveRecord "http_redirects"
              (RedirectRow
                 {| HttpRedirect.crawl_id := crawl;
                    HttpRedirect.old_request_id :=
                      OnBeforeRedirect.requestId details;
                    HttpRedirect.new_request_id := None;
                    HttpRedirect.time_stamp :=
                      toISOString (OnBeforeRedirect.timeStamp details) |})]).
Proof. reflexivity. Qed.

End Gateway.

Lemma extension_events_discarded_witness :
  originUrl_of (BeforeRedirect (sample_redirect (Some extension_origin)))
  = Some extension_origin
  /\ JsString.occurs "moz-extension://" extension_origin
  /\ @invoke Sample.lib Sample.js Sample.host (sample_listener true true)
       (BeforeRedirect (sample_redirect (Some extension_origin))) initial
     = (tt, initial).
Proof.
  split; [reflexivity|]. split; [exact extension_origin_occurs|].
  apply (@extension_events_discarded Sample.lib Sample.js Sample.host
           (sample_listener true true)
           (BeforeRedirect (sample_redirect (Some extension_origin)))
           initial extension_origin eq_refl extension_origin_occurs).
Defined.

(** Scenario 3 of the specification: a redirect of transaction 42. *)
Example redirect_scenario :
  trace (snd (@onBeforeRedirectHandler Sample.js (sample_redirect None) 7 initial))
  = [saveRecord "http_redirects"
       (RedirectRow {| HttpRedirect.crawl_id := 7;
                       HttpRedirect.old_request_id := 42;
                       HttpRedirect.new_request_id := None;
                       HttpRedirect.time_stamp := "2018-11-02T00:00:00.123Z" |})].
Proof. vm_compute. reflexivity. Qed.

(** ** Handling events leaves the wiring alone *)

Lemma same_wiring_refl (s : State) : same_wiring s s.
Proof. repeat split. Qed.

Lemma same_wiring_trans (s1 s2 s3 : State) :
  same_wiring s1 s2 -> same_wiring s2 s3 -> same_wiring s1 s3.
Proof.
  intros (A1 & B1 & C1) (A2 & B2 & C2). repeat split.
  - now rewrite A2.
  - now rewrite B2.
  - intros ch. now rewrite C2.
Qed.

Lemma wiring_ret {A} (a : A) : preserves_wiring (mret a : M A).
Proof. intros s. apply same_wiring_refl. Qed.

Lemma wiring_bind {A B} (m : M A) (f : A -> M B) :
  preserves_wiring m -> (forall a, preserves_wiring (f a)) ->
  preserves_wiring (m ≫= f).
Proof.
  intros Hm Hf s. unfold mbind, M_bind.
  specialize (Hm s). destruct (m s) as [a s1]. simpl in Hm.
  eapply same_wiring_trans; [exact Hm|apply Hf].
Qed.

Lemma wiring_call (c : Call) : preserves_wiring (call c).
Proof. intros s. repeat split. Qed.

Lemma wiring_getPendingRequest (requestId : Z) :
  preserves_wiring (getPendingRequest requestId).
Proof.
  intros s. unfold getPendingRequest, mbind, M_bind, read. simpl.
  destruct (pendingRequests (this s) !! requestId);
    repeat split; try (intros []; reflexivity).
Qed.

Lemma wiring_getPendingResponse (requestId : Z) :
  preserves_wiring (getPendingResponse requestId).
Proof.
  intros s. unfold getPendingResponse, mbind, M_bind, read. simpl.
  destruct (pendingResponses (this s) !! requestId);
    repeat split; try (intros []; reflexivity).
Qed.

Lemma wiring_on_pendingRequest (requestId : Z) f :
  preserves_wiring (on_pendingRequest requestId f).
Proof. intros s. repeat split; try (intros []; reflexivity). Qed.

Lemma wiring_on_pendingResponse (requestId : Z) f :
  preserves_wiring (on_pendingResponse requestId f).
Proof. intros s. repeat split; try (intros []; reflexivity). Qed.

Create HintDb wiring.
#[global] Hint Resolve wiring_ret wiring_call wiring_getPendingRequest
  wiring_getPendingResponse wiring_on_pendingRequest
  wiring_on_pendingResponse : wiring.

(** Walks through a method body: binds, conditionals and matches. *)
Ltac wiring :=
  repeat first
    [ solve [auto with wiring]
    | apply wiring_bind; [|intros ?]
    | match goal with
      | |- preserves_wiring (if ?b then _ else _) => destruct b
      | |- preserves_wiring (match ?x with _ => _ end) => destruct x
      end ].

Section Wiring.

Context `{Lib} `{JsRuntime} `{Host}.

Lemma wiring_invoke (l : Listener) (e : Event) : preserves_wiring (invoke l e).
Proof.
  destruct e as [d|d|d|d]; simpl.
  - unfold onBeforeRequestListener_body, addResponseResponseBodyListener. wiring.
  - unfold onBeforeSendHeadersListener_body, onBeforeSendHeadersHandler,
      processPost. wiring.
  - unfold onBeforeRedirectListener_body, onBeforeRedirectHandler. wiring.
  - unfold onCompletedListener_body, onCompletedHandler, logWithResponseBody.
    wiring.
Qed.

Lemma wiring_deliver (e : Event) : preserves_wiring (deliver e).
Proof.
  intros s. unfold deliver.
  generalize (active (channel_of e) s) as ls.
  assert (G : forall ls (acc : unit * State),
             same_wiring s (snd acc) ->
             same_wiring s
               (snd (fold_left (fun acc l => invoke l e (snd acc)) ls acc))).
  { induction ls as [|l ls IH]; intros acc Hacc; simpl; [exact Hacc|].
    apply IH. eapply same_wiring_trans; [exact Hacc|apply wiring_invoke]. }
  intros ls. apply G, same_wiring_refl.
Qed.

End Wiring.

(** ** Listener lifecycle *)

Lemma filter_twice {A} (p q : A -> bool) (l : list A) :
  List.filter q (List.filter p l) = List.filter (fun x => p x && q x) l.
Proof.
  induction l as [|x l IH]; simpl; [reflexivity|].
  destruct (p x); simpl; [destruct (q x)|]; now rewrite IH.
Qed.

Lemma filter_all {A} (l : list A) : List.filter (fun _ => true) l = l.
Proof. induction l as [|x l IH]; simpl; [reflexivity|now rewrite IH]. Qed.

Lemma filter_idem {A} (p : A -> bool) (l : list A) :
  List.filter p (List.filter p l) = List.filter p l.
Proof.
  rewrite filter_twice. apply List.filter_ext. intros x. now destruct (p x).
Qed.

Lemma uninstall_eq (ch : Channel) (s : State) :
  uninstall ch s
  = (tt, {| this := this s;
            subscriptions :=
              List.filter
                (fun sb => match listener_field ch (this s) with
                           | Some l => negb (holds ch l sb)
                           | None => true
                           end)
                (subscriptions s);
            allocated := allocated s;
            trace := trace s ++ match listener_field ch (this s) with
                                | Some l => [removeListener ch l]
                                | None => []
                                end |}).
Proof.
  unfold uninstall, mbind, M_bind, read.
  destruct (listener_field ch (this s)) as [l|]; [reflexivity|].
  rewrite filter_all, app_nil_r. now destruct s.
Qed.

(** What [cleanup] does, in one equation: it calls [removeListener] for
    the fields that are set, which unregisters exactly the subscriptions of
    those listeners; the instrument itself is not changed. *)
Lemma cleanup_eq (s : State) :
  cleanup s
  = (tt, {| this := this s;
            subscriptions := List.filter (foreign (this s)) (subscriptions s);
            allocated := allocated s;
            trace := trace s ++ removals (this s) |}).
Proof.
  unfold cleanup, mbind, M_bind.
  rewrite !uninstall_eq; simpl.
  rewrite !filter_twice, <- !app_assoc.
  unfold removals, foreign; simpl. rewrite app_nil_r.
  f_equal. f_equal.
  apply List.filter_ext. intros sb.
  now rewrite andb_true_r, !andb_assoc.
Qed.

Lemma foreign_wiring (i i' : HttpInstrument) (sb : Subscription) :
  (forall ch, listener_field ch i' = listener_field ch i) ->
  foreign i' sb = foreign i sb.
Proof. intros E. unfold foreign, channels. cbn [forallb]. now rewrite !E. Qed.

Lemma removals_spec (i : HttpInstrument) (ch : Channel) (l : Listener) :
  In (removeListener ch l) (removals i) <-> listener_field ch i = Some l.
Proof.
  unfold removals. rewrite in_flat_map. split.
  - intros (ch' & _ & Hin).
    destruct (listener_field ch' i) as [l'|] eqn:E; simpl in Hin; [|tauto].
    destruct Hin as [Hin|[]]. injection Hin as <- <-. exact E.
  - intros E. exists ch. split.
    + destruct ch; simpl; tauto.
    + rewrite E. now left.
Qed.

(** [run] on an instrument that was never run and a browser without
    registrations: four new listeners, one per channel, each in its field. *)
Lemma run_fresh (crawl : Z) (js all : bool) pr ps (n : nat) (tr : list Call) :
  let s := snd (run crawl js all
                  {| this := never_run pr ps; subscriptions := [];
                     allocated := n; trace := tr |}) in
  List.filter (foreign (this s)) (subscriptions s) = [].
Proof.
  lazy -[Nat.eqb]. rewrite !Nat.eqb_refl. reflexivity.
Qed.

Section Lifecycle.

Context `{Lib} `{JsRuntime} `{Host}.

Lemma wiring_after_events (evs : list Event) (s : State) :
  same_wiring s (after_events evs s).
Proof.
  revert s; induction evs as [|e evs IH]; intros s; simpl.
  - apply same_wiring_refl.
  - eapply same_wiring_trans; [apply (wiring_deliver e s)|apply IH].
Qed.

(** C7: [cleanup] is safe before [run] and idempotent.
    - On an instrument on which [run] was never called it does nothing at
      all: no call is made and the state is returned as it was.
    - It calls [removeListener] on a channel exactly when that channel's
      listener field is set.
    - It is a total function of the state (removing a listener that is
      not registered does nothing), and a second [cleanup] leaves the
      instrument, the registrations and the allocator as the first left
      them.
    - After [run] on a fresh instrument and any events, one [cleanup], and
      also two in a row, leave no registration on any channel. *)
Theorem cleanup_idempotent_and_safe_before_run :
  (forall pr ps subs n tr,
      let s := {| this := never_run pr ps; subscriptions := subs;
                  allocated := n; trace := tr |} in
      cleanup s = (tt, s))
  /\ (forall s ch l,
        In (removeListener ch l)
           (drop (length (trace s)) (trace (snd (cleanup s))))
        <-> listener_field ch (this s) = Some l)
  /\ (forall s,
        let s1 := snd (cleanup s) in
        let s2 := snd (cleanup s1) in
        this s2 = this s1
        /\ subscriptions s2 = subscriptions s1
        /\ allocated s2 = allocated s1)
  /\ (forall crawl js all pr ps n tr evs,
        let s := after_events evs
                   (snd (run crawl js all
                           {| this := never_run pr ps; subscriptions := [];
                              allocated := n; trace := tr |})) in
        subscriptions (snd (cleanup s)) = []
        /\ subscriptions (snd (cleanup (snd (cleanup s)))) = []).
Proof.
  split; [|split; [|split]].
  - intros pr ps subs n tr s. rewrite cleanup_eq. subst s; simpl.
    unfold removals, foreign; simpl. now rewrite filter_all, app_nil_r.
  - intros s ch l. rewrite cleanup_eq; simpl.
    rewrite drop_app_length. apply removals_spec.
  - intros s s1 s2. subst s1 s2. rewrite !cleanup_eq; simpl.
    repeat split. apply filter_idem.
  - intros crawl js all pr ps n tr evs s.
    assert (E : subscriptions (snd (cleanup s)) = []).
    { rewrite cleanup_eq; simpl. subst s.
      set (s1 := snd (run _ _ _ _)).
      destruct (wiring_after_events evs s1) as (Es & _ & Ef).
      rewrite Es.
      rewrite (List.filter_ext _ _ (fun sb => foreign_wiring _ _ sb Ef)).
      apply run_fresh. }
    split; [exact E|].
    rewrite (cleanup_eq (snd (cleanup s))). simpl. now rewrite E.
Qed.

End Lifecycle.

(** ** Response assembler *)

Section Response.

Context `{Lib} `{JsRuntime} `{Host}.

Lemma captureFails_retrieve (p : PendingResponse.t) :
  captureFails p <-> exists err, retrieve p = inl err.
Proof.
  unfold captureFails, retrieve.
  destruct (PendingResponse.responseBodyListener p) as [l|].
  - destruct (getResponseBody l) as [e|body].
    + split; eauto.
    + destruct (getContentHash l) as [e|h].
      * split; eauto.
      * split.
        -- intros [[e E]|[e E]]; discriminate.
        -- intros [e E]; discriminate.
  - split; eauto.
Qed.

(** Under the capture policy the response assembler hands the record to
    [logWithResponseBody]; otherwise it sends the record at once. *)
Lemma onCompletedHandler_policy
    (details : OnCompleted.details) (crawl : Z) (js all : bool) :
  onCompletedHandler details crawl js all
  = if capturePolicy js all (OnCompleted.type details)
    then logWithResponseBody details (responseUpdate details crawl)
    else call (saveRecord "http_responses"
                 (ResponseRow (responseUpdate details crawl))).
Proof.
  unfold onCompletedHandler, capturePolicy.
  destruct all; [reflexivity|]. simpl.
  now destruct (js && isJS (OnCompleted.type details)).
Qed.

Lemma responseUpdate_no_hash (details : OnCompleted.details) (crawl : Z) :
  HttpResponse.content_hash (responseUpdate details crawl) = None.
Proof.
  unfold responseUpdate.
  now destruct (match OnCompleted.responseHeaders details with
                | Some hs => _ | None => _ end).
Qed.

(** C1: when retrieval of body and hash succeeds, the escaped body and
    the escaped hash go to [saveContent] and the record goes to
    [saveRecord] next; but the record is the one [onCompletedHandler]
    built, in which [content_hash] was never assigned: it does not carry
    the hash that was passed to [saveContent]. *)
Theorem logWithResponseBody_success_omits_hash
    (details : OnCompleted.details) (crawl : Z) (js all : bool) (s : State)
    (respBody contentHash : string) :
  capturePolicy js all (OnCompleted.type details) = true ->
  retrieve (fst (getPendingResponse (OnCompleted.requestId details) s))
  = inr (respBody, contentHash) ->
  exists update,
    onCompletedHandler details crawl js all s
    = (tt, logged (snd (getPendingResponse (OnCompleted.requestId details) s))
             [saveContent (escapeString (Some respBody))
                          (escapeString (Some contentHash));
              saveRecord "http_responses" (ResponseRow update)])
    /\ update = responseUpdate details crawl
    /\ HttpResponse.content_hash update = None.
Proof.
  intros Hp Hr. exists (responseUpdate details crawl).
  split; [|split; [reflexivity|apply responseUpdate_no_hash]].
  rewrite onCompletedHandler_policy, Hp.
  unfold logWithResponseBody, mbind, M_bind.
  destruct (getPendingResponse _ s) as [p s1]; simpl in Hr |- *.
  rewrite Hr. unfold call, logged; simpl. now rewrite <- app_assoc.
Qed.

(** C3: when the capture policy asks for the body and retrieval fails,
    for whatever reason, a listener that was never attached included, the
    assembler logs one error and then sends the response record, once,
    with [content_hash] set to the sentinel. *)
Theorem capture_failure_emits_sentinel
    (details : OnCompleted.details) (crawl : Z) (js all : bool) (s : State) :
  capturePolicy js all (OnCompleted.type details) = true ->
  captureFails (fst (getPendingResponse (OnCompleted.requestId details) s)) ->
  exists err update,
    onCompletedHandler details crawl js all s
    = (tt, logged (snd (getPendingResponse (OnCompleted.requestId details) s))
             [logError (retrieval_message err);
              saveRecord "http_responses" (ResponseRow update)])
    /\ HttpResponse.content_hash update = Some "<error>"
    /\ update = HttpResponse.set_content_hash "<error>"
                  (responseUpdate details crawl).
Proof.
  intros Hp [err Hr]%captureFails_retrieve.
  exists err, (HttpResponse.set_content_hash "<error>"
                 (responseUpdate details crawl)).
  split; [|split; reflexivity].
  rewrite onCompletedHandler_policy, Hp.
  unfold logWithResponseBody, mbind, M_bind.
  destruct (getPendingResponse _ s) as [p s1]; simpl in Hr |- *.
  rewrite Hr. unfold call, logged; simpl. now rewrite <- app_assoc.
Qed.

End Response.

(** Capture-all mode, a body-stage event and then the completion of
    transaction 42, in the reference environment. *)
Lemma logWithResponseBody_success_omits_hash_witness :
  let l := sample_listener false true in
  let s1 := snd (@invoke Sample.lib Sample.js Sample.host l
                   (BeforeRequest (sample_beforeRequest "image" None)) initial) in
  capturePolicy false true "image" = true
  /\ @retrieve Sample.js Sample.host (fst (getPendingResponse 42 s1))
     = inr ("hello",
            "2cf24dba5fb0a30e26e83b2ac5b9e29e1b161e5c1fa7425e73043362938b9824")
  /\ exists update,
       @onCompletedHandler Sample.lib Sample.js Sample.host
         (sample_completed "image") 7 false true s1
       = (tt, logged (snd (getPendingResponse 42 s1))
                [saveContent "hello"
                   "2cf24dba5fb0a30e26e83b2ac5b9e29e1b161e5c1fa7425e73043362938b9824";
                 saveRecord "http_responses" (ResponseRow update)])
       /\ update = @responseUpdate Sample.lib Sample.js (sample_completed "image") 7
       /\ HttpResponse.content_hash update = None.
Proof.
  intros l s1. split; [reflexivity|]. split; [reflexivity|].
  apply (@logWithResponseBody_success_omits_hash Sample.lib Sample.js Sample.host
           (sample_completed "image") 7 false true s1 "hello"
           "2cf24dba5fb0a30e26e83b2ac5b9e29e1b161e5c1fa7425e73043362938b9824"
           eq_refl eq_refl).
Defined.

(** Capture-scripts mode and a script whose body-stage event was never
    seen: no listener on the buffer. *)
Lemma capture_failure_emits_sentinel_witness :
  capturePolicy true false "script" = true
  /\ @captureFails Sample.host (fst (getPendingResponse 42 initial))
  /\ exists err update,
       @onCompletedHandler Sample.lib Sample.js Sample.host
         (sample_completed "script") 7 true false initial
       = (tt, logged (snd (getPendingResponse 42 initial))
                [logError (retrieval_message err);
                 saveRecord "http_responses" (ResponseRow update)])
       /\ HttpResponse.content_hash update = Some "<error>"
       /\ update = HttpResponse.set_content_hash "<error>"
                     (@responseUpdate Sample.lib Sample.js
                        (sample_completed "script") 7).
Proof.
  split; [reflexivity|]. split; [exact I|].
  exact (@capture_failure_emits_sentinel Sample.lib Sample.js Sample.host
           (sample_completed "script") 7 true false initial eq_refl I).
Defined.

(** The same run, call by call. *)
Example capture_failure_trace :
  trace (snd (@onCompletedHandler Sample.lib Sample.js Sample.host
                (sample_completed "script") 7 true false initial))
  = [logError
       ("Unable to retrieve response body."
        +:+ "Likely caused by a programming error. Error Message:"
        +:+ "TypeError" +:+ "responseBodyListener is undefined"
        +:+ newline +:+ "");
     saveRecord "http_responses"
       (ResponseRow
          {| HttpResponse.crawl_id := 7;
             HttpResponse.request_id := 42;
             HttpResponse.is_cached := 1;
             HttpResponse.url := "https://a.example/x";
             HttpResponse.method := "GET";
             HttpResponse.response_status := 200;
             HttpResponse.response_status_text := "HTTP/1.1 200 OK";
             HttpResponse.time_stamp := "2018-11-02T00:00:00.456Z";
             HttpResponse.headers := "[]";
             HttpResponse.location := "";
             HttpResponse.content_hash := Some "<error>" |})].
Proof. vm_compute. reflexivity. Qed.

(** Scenario 4 of the specification, call by call: capture-all mode, the
    body-stage event and then the completion of a cached transaction whose
    tap delivers [hello]. *)
Example capture_success_trace :
  let l := sample_listener false true in
  let s1 := snd (@invoke Sample.lib Sample.js Sample.host l
                   (BeforeRequest (sample_beforeRequest "image" None)) initial) in
  trace (snd (@invoke Sample.lib Sample.js Sample.host l
                (Completed (sample_completed "image")) s1))
  = [new_ResponseBodyListener (sample_beforeRequest "image" None);
     saveContent "hello"
       "2cf24dba5fb0a30e26e83b2ac5b9e29e1b161e5c1fa7425e73043362938b9824";
     saveRecord "http_responses"
       (ResponseRow
          {| HttpResponse.crawl_id := 7;
             HttpResponse.request_id := 42;
             HttpResponse.is_cached := 1;
             HttpResponse.url := "https://a.example/x";
             HttpResponse.method := "GET";
             HttpResponse.response_status := 200;
             HttpResponse.response_status_text := "HTTP/1.1 200 OK";
             HttpResponse.time_stamp := "2018-11-02T00:00:00.456Z";
             HttpResponse.headers := "[]";
             HttpResponse.location := "";
             HttpResponse.content_hash := None |})].
Proof. vm_compute. reflexivity. Qed.

(** ** Attachment of the body capture listener *)

Lemma capturePolicy_modes (js all : bool) (ty : string) :
  capturePolicy js all ty = true
  <-> all = true \/ (js = true /\ ty = "script").
Proof.
  unfold capturePolicy, isJS.
  destruct all, js; simpl; destruct (String.eqb_spec ty "script");
    intuition congruence.
Qed.

Section Attachment.

Context `{Lib} `{JsRuntime} `{Host}.

(** The pre-request listener on an event that passes the extension test,
    as one equation: both buffers exist afterwards and hold the event, and
    under the capture policy a listener is constructed and put on the
    response buffer. *)
Lemma onBeforeRequestListener_body_eq
    (l : Listener) (details : OnBeforeRequest.details) (s : State) :
  requestStemsFromExtension (OnBeforeRequest.originUrl details) = false ->
  let requestId := OnBeforeRequest.requestId details in
  let policy := capturePolicy (saveJavascript l) (saveAllContent l)
                  (OnBeforeRequest.type details) in
  onBeforeRequestListener_body l details s
  = (blockingResponseThatDoesNothing,
     {| this :=
          set_pendingResponses
            ((if policy
              then alter (PendingResponse.addResponseResponseBodyListener details)
                     requestId
              else fun m => m)
               (alter (PendingResponse.resolveBeforeRequestEventDetails details)
                  requestId
                  (match pendingResponses (this s) !! requestId with
                   | Some _ => pendingResponses (this s)
                   | None => <[requestId := PendingResponse.new]>
                               (pendingResponses (this s))
                   end)))
            (set_pendingRequests
               (alter (PendingRequest.resolveBeforeRequestEventDetails details)
                  requestId
                  (match pendingRequests (this s) !! requestId with
                   | Some _ => pendingRequests (this s)
                   | None => <[requestId := PendingRequest.new]>
                               (pendingRequests (this s))
                   end))
               (this s));
        subscriptions := subscriptions s;
        allocated := allocated s;
        trace := trace s
                 ++ (if policy then [new_ResponseBodyListener details] else []) |}).
Proof.
  intros Hx requestId policy. subst requestId policy.
  unfold onBeforeRequestListener_body. rewrite Hx.
  destruct s as [[pr ps f1 f2 f3 f4] subs n tr].
  unfold capturePolicy, addResponseResponseBodyListener, getPendingRequest,
    getPendingResponse, on_pendingRequest, on_pendingResponse,
    mbind, M_bind, mret, M_ret, read, write, call.
  simpl.
  destruct (pr !! OnBeforeRequest.requestId details) eqn:Epr; simpl;
    (destruct (ps !! OnBeforeRequest.requestId details) eqn:Eps; simpl);
    (destruct (saveAllContent l); simpl);
    try (destruct (saveJavascript l && isJS (OnBeforeRequest.type details)); simpl);
    rewrite ?app_nil_r; reflexivity.
Qed.

(** C4, as amended: for a pre-request event that does not stem from the
    extension, the listener body constructs a body capture listener, for
    this event and on this transaction's buffer, exactly when the capture
    policy holds: always in capture-all mode, for scripts only in
    capture-scripts mode, never when both flags are off; in that last case
    the response record is sent at once, without a listener. *)
Theorem body_listener_attached_per_policy
    (l : Listener) (details : OnBeforeRequest.details) (s : State) :
  requestStemsFromExtension (OnBeforeRequest.originUrl details) = false ->
  let policy := capturePolicy (saveJavascript l) (saveAllContent l)
                  (OnBeforeRequest.type details) in
  let s' := snd (onBeforeRequestListener_body l details s) in
  let listener_on (st : State) :=
    pendingResponses (this st) !! OnBeforeRequest.requestId details
    ≫= PendingResponse.responseBodyListener in
  trace s' = trace s ++ (if policy then [new_ResponseBodyListener details] else [])
  /\ listener_on s' = (if policy then Some {| tapped := details |} else listener_on s)
  /\ (policy = true <->
      saveAllContent l = true
      \/ (saveJavascript l = true /\ OnBeforeRequest.type details = "script"))
  /\ (forall completed crawl st,
        onCompletedHandler completed crawl false false st
        = (tt, logged st [saveRecord "http_responses"
                            (ResponseRow (responseUpdate completed crawl))])).
Proof.
  intros Hx policy s' listener_on.
  pose proof (onBeforeRequestListener_body_eq l details s Hx) as E.
  cbv zeta in E. fold policy in E.
  split; [|split; [|split]].
  - subst s'. now rewrite E.
  - subst s' listener_on. rewrite E. cbn [snd this set_pendingResponses pendingResponses].
    destruct policy; rewrite ?lookup_alter_eq;
      destruct (pendingResponses (this s) !! OnBeforeRequest.requestId details)
        as [p|] eqn:Ep;
      rewrite ?Ep, ?lookup_insert_eq; reflexivity.
  - apply capturePolicy_modes.
  - reflexivity.
Qed.

End Attachment.

Lemma body_listener_attached_per_policy_witness :
  let l := sample_listener true false in
  let d := sample_beforeRequest "script" (Some "https://a.example/") in
  requestStemsFromExtension (OnBeforeRequest.originUrl d) = false
  /\ trace (snd (onBeforeRequestListener_body l d initial))
     = trace initial ++ [new_ResponseBodyListener d].
Proof.
  intros l d. split; [reflexivity|].
  apply (@body_listener_attached_per_policy Sample.lib Sample.js Sample.host
           l d initial eq_refl).
Defined.

(** C4 as it is worded fails on an event sent by the extension itself: in
    capture-all mode the policy asks for a listener, and none is
    constructed. *)
Lemma capture_all_skips_extension_events :
  let l := sample_listener false true in
  let d := sample_beforeRequest "script" (Some extension_origin) in
  ~ (In (new_ResponseBodyListener d)
        (trace (snd (onBeforeRequestListener_body l d initial)))
     <-> capturePolicy (saveJavascript l) (saveAllContent l)
           (OnBeforeRequest.type d) = true).
Proof.
  intros l d [_ Hattach]. specialize (Hattach eq_refl).
  vm_compute in Hattach. exact Hattach.
Qed.

(** ** Request assembler *)

Lemma eqb_bool_decide (a b : string) : String.eqb a b = bool_decide (a = b).
Proof.
  destruct (String.eqb_spec a b) as [E|E].
  - now rewrite bool_decide_eq_true_2.
  - now rewrite bool_decide_eq_false_2.
Qed.

Lemma flat_map_filter {A B} (c : A -> bool) (f : A -> B) (l : list A) :
  flat_map (fun x => if c x then [f x] else []) l = map f (List.filter c l).
Proof.
  induction l as [|x l IH]; simpl; [reflexivity|].
  destruct (c x); simpl; now rewrite IH.
Qed.

Section Request.

Context `{Lib} `{JsRuntime} `{Host}.

Lemma scan_fold (hs : list HttpHeader) :
  forall headers encodingType isOcsp,
    fold_left scanHeader hs (headers, encodingType, isOcsp)
    = (headers ++ map header_pair hs,
       match last (List.filter
                     (fun h => bool_decide (name h = "Content-Type")) hs) with
       | Some h => value h
       | None => encodingType
       end,
       isOcsp || existsb ocsp_test hs).
Proof.
  induction hs as [|h hs IH]; intros headers encodingType isOcsp.
  - simpl. now rewrite app_nil_r, orb_false_r.
  - cbn [fold_left List.filter map existsb]. unfold scanHeader at 2.
    unfold ocsp_test.
    rewrite <- eqb_bool_decide.
    destruct (String.eqb (name h) "Content-Type"); cbn [andb].
    + destruct (Z.eqb (JsString.indexOf (value h) "application/ocsp-request") (-1));
        cbn [negb]; rewrite IH, <- app_assoc; cbn [app orb];
        rewrite last_cons;
        destruct (last (List.filter _ hs));
        rewrite ?orb_true_r, ?orb_false_r; reflexivity.
    + rewrite IH, <- app_assoc. reflexivity.
Qed.

Lemma ocsp_test_spec (hs : list HttpHeader) :
  existsb ocsp_test hs = true <-> isOcspRequest hs.
Proof.
  unfold isOcspRequest. rewrite existsb_exists.
  assert (Hne : "application/ocsp-request" <> "") by discriminate.
  split; intros (h & Hin & Hh); exists h; (split; [exact Hin|]).
  - apply andb_prop in Hh as [Hn Hv]. split.
    + now apply String.eqb_eq.
    + apply indexOf_occurs; [exact Hne|].
      rewrite indexOf_absent in Hv by exact Hne.
      now rewrite negb_involutive in Hv.
  - destruct Hh as [Hn Hv]. apply andb_true_intro; split.
    + now apply String.eqb_eq.
    + rewrite indexOf_absent by exact Hne. rewrite negb_involutive.
      now apply indexOf_occurs.
Qed.

(** The header scan computes what the specification says: all headers,
    escaped and in order; the encoding type; and the OCSP flag. *)
Lemma scanRequestHeaders_spec (details : OnBeforeSendHeaders.details) :
  exists isOcsp,
    scanRequestHeaders (OnBeforeSendHeaders.requestHeaders details)
    = (map header_pair (headers_of details),
       encodingType_spec (headers_of details), isOcsp)
    /\ (isOcsp = true <-> isOcspRequest (headers_of details)).
Proof.
  exists (existsb ocsp_test (headers_of details)).
  split; [|apply ocsp_test_spec].
  unfold scanRequestHeaders, headers_of, encodingType_spec.
  destruct (OnBeforeSendHeaders.requestHeaders details) as [hs|]; simpl.
  - now rewrite scan_fold.
  - reflexivity.
Qed.

Lemma recoveredHeaders_spec (ph : list (string * string)) :
  recoveredHeaders ph = map escaped_pair (List.filter allowed ph).
Proof.
  unfold recoveredHeaders.
  rewrite <- (flat_map_filter allowed escaped_pair).
  apply flat_map_ext. intros [n v].
  replace (JsString.includes contentHeaders n) with (allowed (n, v));
    [reflexivity|].
  unfold allowed, JsString.includes, contentHeaders; simpl.
  rewrite !eqb_bool_decide, orb_false_r.
  repeat case_bool_decide; simpl; try reflexivity; intuition congruence.
Qed.

End Request.

Lemma getPendingRequest_trace (requestId : Z) (s : State) :
  trace (snd (getPendingRequest requestId s)) = trace s.
Proof.
  unfold getPendingRequest, mbind, M_bind, read; simpl.
  now destruct (pendingRequests (this s) !! requestId).
Qed.

Lemma logged_trace (s : State) (cs : list Call) :
  trace (logged s cs) = trace s ++ cs.
Proof. reflexivity. Qed.

Section Assembler.

Context `{Lib} `{JsRuntime} `{Host}.

(** The last statements of the assembler, as calls. *)
Lemma lookup_and_save_calls
    (details : OnBeforeSendHeaders.details) (crawl : Z)
    (headers : list (string * string)) (post_body : option string) (s : State) :
  (call (tabs_get (OnBeforeSendHeaders.tabId details));;
   match await_tabs_get (OnBeforeSendHeaders.tabId details) with
   | inr tab =>
       call (saveRecord "http_requests"
               (RequestRow (requestUpdate details crawl headers post_body tab)))
   | inl _ => mret tt
   end) s
  = (tt, logged s (lookup_and_save details crawl headers post_body)).
Proof.
  unfold lookup_and_save, mbind, M_bind, mret, M_ret, call, logged.
  destruct (await_tabs_get _); simpl; now rewrite <- ?app_assoc.
Qed.

(** The assembler after the header scan, for a request that is not
    processed as a POST. *)
Lemma handler_without_post
    (details : OnBeforeSendHeaders.details) (crawl : Z) (s : State) :
  (OnBeforeSendHeaders.method details <> "POST"
   \/ isOcspRequest (headers_of details)) ->
  onBeforeSendHeadersHandler details crawl s
  = (tt, logged s
           (lookup_and_save details crawl
              (map header_pair (headers_of details)) None)).
Proof.
  intros Hno. unfold onBeforeSendHeadersHandler.
  destruct (scanRequestHeaders_spec details) as (isOcsp & -> & Hocsp).
  assert (E : String.eqb (OnBeforeSendHeaders.method details) "POST"
              && negb isOcsp = false).
  { destruct Hno as [Hm|Ho].
    - apply String.eqb_neq in Hm. now rewrite Hm.
    - apply Hocsp in Ho. rewrite Ho. apply andb_false_r. }
  rewrite E. unfold mbind at 1, M_bind at 1, mret at 1, M_ret at 1.
  apply lookup_and_save_calls.
Qed.

(** The assembler after the header scan, for a POST that is not OCSP. *)
Lemma handler_with_post
    (details : OnBeforeSendHeaders.details) (crawl : Z) (s : State) :
  OnBeforeSendHeaders.method details = "POST" ->
  ~ isOcspRequest (headers_of details) ->
  onBeforeSendHeadersHandler details crawl s
  = (let '(headers, post_body, s1) :=
       processPost details (encodingType_spec (headers_of details))
         (map header_pair (headers_of details)) s in
     (tt, logged s1 (lookup_and_save details crawl headers post_body))).
Proof.
  intros Hm Hno. unfold onBeforeSendHeadersHandler.
  destruct (scanRequestHeaders_spec details) as (isOcsp & -> & Hocsp).
  destruct isOcsp; [exfalso; apply Hno, Hocsp; reflexivity|].
  rewrite Hm. change (String.eqb "POST" "POST" && negb false) with true.
  cbv iota. unfold mbind at 1, M_bind at 1.
  destruct (processPost _ _ _ s) as [[headers post_body] s1].
  apply lookup_and_save_calls.
Qed.


(** The POST block when the wait is answered. *)
Lemma processPost_resolved
    (details : OnBeforeSendHeaders.details) (encodingType : string)
    (headers : list (string * string)) (s : State)
    (d : OnBeforeRequest.details) :
  let requestId := OnBeforeSendHeaders.requestId details in
  awaitResolved requestId (fst (getPendingRequest requestId s)) 1000 = Some d ->
  processPost details encodingType headers s
  = match OnBeforeRequest.requestBody d with
    | Some _ =>
        let postObj := parsePostRequest d encodingType in
        (headers ++ match post_headers postObj with
                    | Some ph => recoveredHeaders ph
                    | None => []
                    end,
         parsed_post_body postObj,
         logged (snd (getPendingRequest requestId s))
           [wait_resolvedWithinTimeout requestId 1000;
            run_parsePostRequest d encodingType])
    | None =>
        (headers, None,
         logged (snd (getPendingRequest requestId s))
           [wait_resolvedWithinTimeout requestId 1000])
    end.
Proof.
  intros requestId Hw. subst requestId.
  unfold processPost, mbind, M_bind.
  destruct (getPendingRequest _ s) as [p s1]; simpl in Hw |- *.
  rewrite Hw.
  destruct (OnBeforeRequest.requestBody d); unfold call, logged, mret, M_ret;
    simpl; [|reflexivity].
  destruct (post_headers _); rewrite <- ?app_assoc, ?app_nil_r; reflexivity.
Qed.

(** C5: the header scan compares names with the exact string
    [Content-Type] and takes that header's value as the encoding type; when
    such a header's value contains [application/ocsp-request] the OCSP flag
    is set and, whatever the method, the assembler goes straight to the tab
    lookup: it does not touch the buffers, does not wait and does not run
    the parser; its only calls are the lookup and, when the lookup is
    answered, [saveRecord], and the record it builds has no [post_body]
    and the scanned headers, whatever tab the lookup yields. *)
Theorem ocsp_requests_skip_post_processing
    (details : OnBeforeSendHeaders.details) (crawl : Z) (s : State)
    (h : HttpHeader) :
  In h (headers_of details) ->
  name h = "Content-Type" ->
  JsString.occurs "application/ocsp-request" (value h) ->
  let tabId := OnBeforeSendHeaders.tabId details in
  let update := requestUpdate details crawl
                  (map header_pair (headers_of details)) None in
  scanRequestHeaders (OnBeforeSendHeaders.requestHeaders details)
  = (map header_pair (headers_of details),
     encodingType_spec (headers_of details), true)
  /\ onBeforeSendHeadersHandler details crawl s
     = (tt, logged s
              (tabs_get tabId
               :: match await_tabs_get tabId with
                  | inr tab => [saveRecord "http_requests" (RequestRow (update tab))]
                  | inl _ => []
                  end))
  /\ (forall tab,
        HttpRequest.post_body (update tab) = None
        /\ HttpRequest.headers (update tab)
           = JSON_stringify_headers (map header_pair (headers_of details))).
Proof.
  intros Hin Hn Hv tabId update.
  assert (Ho : isOcspRequest (headers_of details)) by (exists h; auto).
  split; [|split].
  - destruct (scanRequestHeaders_spec details) as (isOcsp & -> & Hocsp).
    apply Hocsp in Ho. now rewrite Ho.
  - rewrite handler_without_post by (now right). reflexivity.
  - intros tab. split; reflexivity.
Qed.


(** C6: when the wait is answered, the fragment has a request body and the
    parser returns [post_headers], the header list of the record the
    assembler builds is the scanned headers followed by the recovered headers
    whose name is one of [Content-Type], [Content-Disposition],
    [Content-Length], escaped and in order; every other recovered header is
    left out.  That record is what is sent once the tab lookup is answered;
    the calls before it are the wait, the parser and the lookup. *)
Theorem recovered_headers_allow_list
    (details : OnBeforeSendHeaders.details) (crawl : Z) (s : State)
    (d : OnBeforeRequest.details) (rb : RequestBody)
    (ph : list (string * string)) :
  let requestId := OnBeforeSendHeaders.requestId details in
  let tabId := OnBeforeSendHeaders.tabId details in
  let encodingType := encodingType_spec (headers_of details) in
  OnBeforeSendHeaders.method details = "POST" ->
  ~ isOcspRequest (headers_of details) ->
  awaitResolved requestId (fst (getPendingRequest requestId s)) 1000 = Some d ->
  OnBeforeRequest.requestBody d = Some rb ->
  post_headers (parsePostRequest d encodingType) = Some ph ->
  exists update : Tab -> HttpRequest.t,
    onBeforeSendHeadersHandler details crawl s
    = (tt, logged (snd (getPendingRequest requestId s))
             (wait_resolvedWithinTimeout requestId 1000
              :: run_parsePostRequest d encodingType
              :: tabs_get tabId
              :: match await_tabs_get tabId with
                 | inr tab => [saveRecord "http_requests" (RequestRow (update tab))]
                 | inl _ => []
                 end))
    /\ (forall tab,
          HttpRequest.headers (update tab)
          = JSON_stringify_headers
              (map header_pair (headers_of details)
               ++ map escaped_pair (List.filter allowed ph)))
    /\ (forall p, In p (List.filter allowed ph)
                  <-> In p ph
                      /\ (fst p = "Content-Type"
                          \/ fst p = "Content-Disposition"
                          \/ fst p = "Content-Length")).
Proof.
  intros requestId tabId encodingType Hm Hno Hw Hb Hp.
  subst requestId tabId encodingType.
  rewrite (handler_with_post details crawl s Hm Hno).
  rewrite (processPost_resolved details _ _ s d Hw), Hb. cbv zeta.
  rewrite Hp, recoveredHeaders_spec.
  exists (requestUpdate details crawl
            (map header_pair (headers_of details)
             ++ map escaped_pair (List.filter allowed ph))
            (parsed_post_body
               (parsePostRequest d (encodingType_spec (headers_of details))))).
  split; [|split].
  - unfold lookup_and_save, logged; simpl. now rewrite <- app_assoc.
  - reflexivity.
  - intros q. rewrite List.filter_In. unfold allowed.
    now rewrite bool_decide_eq_true.
Qed.

End Assembler.

(** ** The request assembler on sample events *)

Lemma form_post_not_ocsp :
  ~ @isOcspRequest [form_header].
Proof.
  intros (h & [<-|[]] & _ & Hocc).
  apply indexOf_occurs in Hocc; discriminate.
Defined.



(** An OCSP request sent with POST. *)
Lemma ocsp_requests_skip_post_processing_witness :
  let details := sample_headers "POST" [ocsp_header] in
  In ocsp_header (headers_of details)
  /\ name ocsp_header = "Content-Type"
  /\ JsString.occurs "application/ocsp-request" (value ocsp_header)
  /\ @onBeforeSendHeadersHandler Sample.lib Sample.js Sample.host details 7 initial
     = (tt, logged initial
              (tabs_get 3
               :: match @await_tabs_get Sample.host 3 with
                  | inr tab =>
                      [saveRecord "http_requests"
                         (RequestRow
                            (@requestUpdate Sample.lib Sample.js details 7
                               (map (@header_pair Sample.lib) (headers_of details))
                               None tab))]
                  | inl _ => []
                  end)).
Proof.
  intros details.
  assert (Hin : In ocsp_header (headers_of details)) by (now left).
  assert (Hocc : JsString.occurs "application/ocsp-request" (value ocsp_header))
    by (now exists "", "").
  split; [exact Hin|]. split; [reflexivity|]. split; [exact Hocc|].
  apply (@ocsp_requests_skip_post_processing Sample.lib Sample.js Sample.host
           details 7 initial ocsp_header Hin eq_refl Hocc).
Defined.

(** Scenario 2 of the specification: the parser of the reference
    environment recovers [Content-Type] and a line [user: alice]; only the
    former reaches the record. *)
Lemma recovered_headers_allow_list_witness :
  let details := sample_headers "POST" [form_header] in
  let ph := [("Content-Type", "application/x-www-form-urlencoded");
             ("user", "alice")] in
  OnBeforeSendHeaders.method details = "POST"
  /\ ~ isOcspRequest (headers_of details)
  /\ @awaitResolved Sample.host 42 (fst (getPendingRequest 42 upload_seen)) 1000
     = Some sample_upload
  /\ is_Some (OnBeforeRequest.requestBody sample_upload)
  /\ post_headers (@parsePostRequest Sample.lib sample_upload
                     (encodingType_spec (headers_of details))) = Some ph
  /\ exists update : Tab -> HttpRequest.t,
       @onBeforeSendHeadersHandler Sample.lib Sample.js Sample.host
         details 7 upload_seen
       = (tt, logged (snd (getPendingRequest 42 upload_seen))
                (wait_resolvedWithinTimeout 42 1000
                 :: run_parsePostRequest sample_upload
                      (encodingType_spec (headers_of details))
                 :: tabs_get 3
                 :: match @await_tabs_get Sample.host 3 with
                    | inr tab =>
                        [saveRecord "http_requests" (RequestRow (update tab))]
                    | inl _ => []
                    end))
       /\ (forall tab,
             HttpRequest.headers (update tab)
             = @JSON_stringify_headers Sample.js
                 (map (@header_pair Sample.lib) (headers_of details)
                  ++ map (@escaped_pair Sample.lib) (List.filter allowed ph))).
Proof.
  intros details ph.
  split; [reflexivity|]. split; [exact form_post_not_ocsp|].
  split; [reflexivity|]. split; [eexists; reflexivity|].
  split; [reflexivity|].
  destruct (@recovered_headers_allow_list Sample.lib Sample.js Sample.host
              details 7 upload_seen sample_upload _ ph
              eq_refl form_post_not_ocsp eq_refl eq_refl eq_refl)
    as (update & E & Eh & _).
  exists update. split; [exact E|exact Eh].
Defined.

Example recovered_headers_json :
  forall update,
    snd (@onBeforeSendHeadersHandler Sample.lib Sample.js Sample.host
           (sample_headers "POST" [form_header]) 7 upload_seen)
    = logged upload_seen
        [wait_resolvedWithinTimeout 42 1000;
         run_parsePostRequest sample_upload "application/x-www-form-urlencoded";
         tabs_get 3;
         saveRecord "http_requests" (RequestRow update)] ->
    HttpRequest.headers update
    = "[[" +:+ Sample.quote +:+ "Content-Type" +:+ Sample.quote +:+ ","
      +:+ Sample.quote +:+ "application/x-www-form-urlencoded" +:+ Sample.quote
      +:+ "],[" +:+ Sample.quote +:+ "Content-Type" +:+ Sample.quote +:+ ","
      +:+ Sample.quote +:+ "application/x-www-form-urlencoded" +:+ Sample.quote
      +:+ "]]"
    /\ HttpRequest.post_body update = Some "{}".
Proof.
  intros update E. apply (f_equal trace) in E.
  vm_compute in E. injection E as <-. vm_compute. split; reflexivity.
Qed.

(** Scenario 1 of the specification: a GET made in a tab yields one record
    without [post_body] and with [is_XHR] 0 for an image. *)
Example get_scenario :
  let details :=
    {| OnBeforeSendHeaders.requestId := 1;
       OnBeforeSendHeaders.url := "https://a.example/x";
       OnBeforeSendHeaders.method := "GET";
       OnBeforeSendHeaders.type := "image";
       OnBeforeSendHeaders.timeStamp := 0;
       OnBeforeSendHeaders.frameId := 0;
       OnBeforeSendHeaders.parentFrameId := -1;
       OnBeforeSendHeaders.tabId := 3;
       OnBeforeSendHeaders.originUrl := None;
       OnBeforeSendHeaders.documentUrl := None;
       OnBeforeSendHeaders.requestHeaders :=
         Some [{| name := "Content-Type"; value := "text/html" |}];
       OnBeforeSendHeaders.frameAncestors := None |} in
  exists update,
    trace (snd (@onBeforeSendHeadersHandler Sample.lib Sample.js Sample.host
                  details 7 initial))
    = [tabs_get 3; saveRecord "http_requests" (RequestRow update)]
    /\ HttpRequest.method update = "GET"
    /\ HttpRequest.post_body update = None
    /\ HttpRequest.is_XHR update = 0.
Proof. intros details. eexists. vm_compute. repeat split. Qed.

(** ** Registration of the pre-request listener

    [run] asks for the blocking variant of the pre-request channel exactly
    when one of the capture flags is on. *)
Lemma run_registers_onBeforeRequest
    (crawl : Z) (js all : bool) pr ps (n : nat) (tr : list Call) :
  let s := snd (run crawl js all
                  {| this := never_run pr ps; subscriptions := [];
                     allocated := n; trace := tr |}) in
  map sub_extraInfoSpec
    (List.filter (fun sb => bool_decide (sub_channel sb = onBeforeRequest))
       (subscriptions s))
  = [if js || all then ["requestBody"; "blocking"] else ["requestBody"]]
  /\ map listener_id (active onBeforeRequest s) = [n]
  /\ onBeforeRequestListener (this s)
     = Some {| listener_id := n; crawlID := crawl;
               saveJavascript := js; saveAllContent := all |}.
Proof. lazy -[orb]. repeat split. Qed.

(** The comparison of header names is exact: a POST whose OCSP content type
    is announced under the name [content-type] is processed as any other
    POST, starting with the wait on the buffer. *)
Example lower_case_name_is_not_recognised :
  let details :=
    sample_headers "POST"
      [{| name := "content-type"; value := "application/ocsp-request" |}] in
  @scanRequestHeaders Sample.lib (OnBeforeSendHeaders.requestHeaders details)
  = ([("content-type", "application/ocsp-request")], "", false)
  /\ trace (snd (@onBeforeSendHeadersHandler Sample.lib Sample.js Sample.host
                   details 7 initial))
     = [wait_resolvedWithinTimeout 42 1000;
        logError timeout_message;
        tabs_get 3;
        saveRecord "http_requests"
          (RequestRow
             (@requestUpdate Sample.lib Sample.js details 7
                [("content-type", "application/ocsp-request")] None
                {| tab_url := Some "https://a.example/" |}))].
Proof. split; vm_compute; reflexivity. Qed.

(** * Further properties of the HTTP instrument *)

(** ** Lazy creation of buffers *)

(** [getPendingRequest] in full. *)
Lemma getPendingRequest_spec (requestId : Z) (s : State) :
  let p := fst (getPendingRequest requestId s) in
  let s' := snd (getPendingRequest requestId s) in
  pendingRequests (this s') !! requestId = Some p
  /\ (pendingRequests (this s) !! requestId = None -> p = PendingRequest.new)
  /\ (forall q, pendingRequests (this s) !! requestId = Some q -> p = q /\ s' = s)
  /\ (forall id', id' <> requestId ->
        pendingRequests (this s') !! id' = pendingRequests (this s) !! id')
  /\ getPendingRequest requestId s' = (p, s')
  /\ pendingResponses (this s') = pendingResponses (this s)
  /\ trace s' = trace s
  /\ same_wiring s s'.
Proof.
  destruct s as [[pr ps f1 f2 f3 f4] subs n tr].
  unfold getPendingRequest, mbind, M_bind, read, write, mret, M_ret; simpl.
  destruct (pr !! requestId) as [q|] eqn:E; simpl.
  - rewrite E. repeat split; try reflexivity; try congruence;
      try (intros []; reflexivity).
  - rewrite lookup_insert_eq. repeat split; try reflexivity; try congruence;
      try (intros []; reflexivity);
      try (intros id' Hne; now rewrite lookup_insert_ne).
Qed.

(** X1: [getPendingRequest] creates the buffer of a transaction on first
    use and only then: afterwards the map holds the returned buffer under
    that id; an id without a buffer gets a new, empty one; a buffer that was
    there is returned as it is and the state is not changed; no other id is
    touched; asking again returns the same buffer and changes nothing; the
    response buffers, the registrations and the trace are not affected. *)
Theorem getPendingRequest_creates_once (requestId : Z) (s : State) :
  let p := fst (getPendingRequest requestId s) in
  let s' := snd (getPendingRequest requestId s) in
  pendingRequests (this s') !! requestId = Some p
  /\ (pendingRequests (this s) !! requestId = None -> p = PendingRequest.new)
  /\ (forall q, pendingRequests (this s) !! requestId = Some q -> p = q /\ s' = s)
  /\ (forall id', id' <> requestId ->
        pendingRequests (this s') !! id' = pendingRequests (this s) !! id')
  /\ getPendingRequest requestId s' = (p, s')
  /\ pendingResponses (this s') = pendingResponses (this s)
  /\ trace s' = trace s
  /\ same_wiring s s'.
Proof. apply getPendingRequest_spec. Qed.

(** [getPendingResponse] in full. *)
Lemma getPendingResponse_spec (requestId : Z) (s : State) :
  let p := fst (getPendingResponse requestId s) in
  let s' := snd (getPendingResponse requestId s) in
  pendingResponses (this s') !! requestId = Some p
  /\ (pendingResponses (this s) !! requestId = None ->
      p = PendingResponse.new /\ PendingResponse.responseBodyListener p = None)
  /\ (forall q, pendingResponses (this s) !! requestId = Some q -> p = q /\ s' = s)
  /\ (forall id', id' <> requestId ->
        pendingResponses (this s') !! id' = pendingResponses (this s) !! id')
  /\ getPendingResponse requestId s' = (p, s')
  /\ pendingRequests (this s') = pendingRequests (this s)
  /\ trace s' = trace s
  /\ same_wiring s s'.
Proof.
  destruct s as [[pr ps f1 f2 f3 f4] subs n tr].
  unfold getPendingResponse, mbind, M_bind, read, write, mret, M_ret; simpl.
  destruct (ps !! requestId) as [q|] eqn:E; simpl.
  - rewrite E. repeat split; try reflexivity; try congruence;
      try (intros []; reflexivity).
  - rewrite lookup_insert_eq. repeat split; try reflexivity; try congruence;
      try (intros []; reflexivity);
      try (intros id' Hne; now rewrite lookup_insert_ne).
Qed.

(** X2: [getPendingResponse] creates the response buffer of a transaction
    on first use and only then, with the same guarantees; a new buffer has
    no body listener. *)
Theorem getPendingResponse_creates_once (requestId : Z) (s : State) :
  let p := fst (getPendingResponse requestId s) in
  let s' := snd (getPendingResponse requestId s) in
  pendingResponses (this s') !! requestId = Some p
  /\ (pendingResponses (this s) !! requestId = None ->
      p = PendingResponse.new /\ PendingResponse.responseBodyListener p = None)
  /\ (forall q, pendingResponses (this s) !! requestId = Some q -> p = q /\ s' = s)
  /\ (forall id', id' <> requestId ->
        pendingResponses (this s') !! id' = pendingResponses (this s) !! id')
  /\ getPendingResponse requestId s' = (p, s')
  /\ pendingRequests (this s') = pendingRequests (this s)
  /\ trace s' = trace s
  /\ same_wiring s s'.
Proof. apply getPendingResponse_spec. Qed.

(** ** Transactions do not interfere *)

Lemma buffers_kept_refl (id : Z) (s : State) : buffers_kept_except id s s.
Proof. repeat split; auto. Qed.

Lemma buffers_kept_trans (id : Z) (s1 s2 s3 : State) :
  buffers_kept_except id s1 s2 -> buffers_kept_except id s2 s3 ->
  buffers_kept_except id s1 s3.
Proof.
  intros (A1 & B1 & C1) (A2 & B2 & C2). split; [|split; auto].
  intros id' Hne. destruct (A1 id' Hne) as [E1 E2], (A2 id' Hne) as [E3 E4].
  split; congruence.
Qed.

Lemma kb_ret {A} (id : Z) (a : A) : keeps_buffers_except id (mret a : M A).
Proof. intros s. apply buffers_kept_refl. Qed.

Lemma kb_bind {A B} (id : Z) (m : M A) (f : A -> M B) :
  keeps_buffers_except id m -> (forall a, keeps_buffers_except id (f a)) ->
  keeps_buffers_except id (m ≫= f).
Proof.
  intros Hm Hf s. unfold mbind, M_bind.
  specialize (Hm s). destruct (m s) as [a s1]. simpl in Hm.
  eapply buffers_kept_trans; [exact Hm|apply Hf].
Qed.

Lemma kb_call (id : Z) (c : Call) : keeps_buffers_except id (call c).
Proof. intros s. repeat split; auto. Qed.

Lemma kb_getPendingRequest (id : Z) :
  keeps_buffers_except id (getPendingRequest id).
Proof.
  intros s.
  destruct (getPendingRequest_spec id s) as (E & _ & _ & F & _ & R & _).
  split; [|split].
  - intros id' Hne. split; [now apply F|now rewrite R].
  - intros _. rewrite E. eauto.
  - now rewrite R.
Qed.

Lemma kb_getPendingResponse (id : Z) :
  keeps_buffers_except id (getPendingResponse id).
Proof.
  intros s.
  destruct (getPendingResponse_spec id s) as (E & _ & _ & F & _ & R & _).
  split; [|split].
  - intros id' Hne. split; [now rewrite R|now apply F].
  - now rewrite R.
  - intros _. rewrite E. eauto.
Qed.

Lemma kb_on_pendingRequest (id : Z) f :
  keeps_buffers_except id (on_pendingRequest id f).
Proof.
  intros s. unfold on_pendingRequest, mbind, M_bind, read, write, set_pendingRequests,
    buffers_kept_except; simpl.
  split; [|split].
  - intros id' Hne. split; [|reflexivity]. now apply lookup_alter_ne.
  - rewrite lookup_alter_eq. apply fmap_is_Some.
  - auto.
Qed.

Lemma kb_on_pendingResponse (id : Z) f :
  keeps_buffers_except id (on_pendingResponse id f).
Proof.
  intros s. unfold on_pendingResponse, mbind, M_bind, read, write, set_pendingResponses,
    buffers_kept_except; simpl.
  split; [|split].
  - intros id' Hne. split; [reflexivity|]. now apply lookup_alter_ne.
  - auto.
  - rewrite lookup_alter_eq. apply fmap_is_Some.
Qed.

Create HintDb buffers.
#[global] Hint Resolve kb_ret kb_call kb_getPendingRequest
  kb_getPendingResponse kb_on_pendingRequest kb_on_pendingResponse : buffers.

Ltac buffers :=
  repeat first
    [ solve [auto with buffers]
    | apply kb_bind; [|intros ?]
    | match goal with
      | |- keeps_buffers_except _ (if ?b then _ else _) => destruct b
      | |- keeps_buffers_except _ (match ?x with _ => _ end) => destruct x
      end ].

Section Isolation.

Context `{Lib} `{JsRuntime} `{Host}.

Lemma kb_invoke (l : Listener) (e : Event) :
  keeps_buffers_except (requestId_of e) (invoke l e).
Proof.
  destruct e as [d|d|d|d]; simpl.
  - unfold onBeforeRequestListener_body, addResponseResponseBodyListener. buffers.
  - unfold onBeforeSendHeadersListener_body, onBeforeSendHeadersHandler,
      processPost. buffers.
  - unfold onBeforeRedirectListener_body, onBeforeRedirectHandler. buffers.
  - unfold onCompletedListener_body, onCompletedHandler, logWithResponseBody.
    buffers.
Qed.

(** X3: handling an event of one transaction, by one listener or by all
    registered ones, leaves the request and response buffers of every other
    transaction exactly as they were, and never removes a buffer: a
    transaction that had a buffer before the event has one after it. *)
Theorem events_touch_only_their_transaction
    (l : Listener) (e : Event) (s : State) :
  buffers_kept_except (requestId_of e) s (snd (invoke l e s))
  /\ buffers_kept_except (requestId_of e) s (snd (deliver e s))
  /\ (forall id,
        (is_Some (pendingRequests (this s) !! id) ->
         is_Some (pendingRequests (this (snd (deliver e s))) !! id))
        /\ (is_Some (pendingResponses (this s) !! id) ->
            is_Some (pendingResponses (this (snd (deliver e s))) !! id))).
Proof.
  assert (D : buffers_kept_except (requestId_of e) s (snd (deliver e s))).
  { unfold deliver. generalize (active (channel_of e) s) as ls.
    assert (G : forall ls (acc : unit * State),
               buffers_kept_except (requestId_of e) s (snd acc) ->
               buffers_kept_except (requestId_of e) s
                 (snd (fold_left (fun acc l => invoke l e (snd acc)) ls acc))).
    { induction ls as [|l' ls IH]; intros acc Hacc; simpl; [exact Hacc|].
      apply IH. eapply buffers_kept_trans; [exact Hacc|apply kb_invoke]. }
    intros ls. apply G, buffers_kept_refl. }
  split; [apply kb_invoke|]. split; [exact D|].
  intros id. destruct D as (F & R1 & R2).
  destruct (decide (id = requestId_of e)) as [->|Hne].
  - split; assumption.
  - destruct (F id Hne) as [-> ->]. split; auto.
Qed.

End Isolation.

(** ** One record per event *)

Lemma saved_app (a b : list Call) : saved (a ++ b) = saved a ++ saved b.
Proof. apply flat_map_app. Qed.

Lemma stored_app (a b : list Call) : stored (a ++ b) = stored a ++ stored b.
Proof. apply flat_map_app. Qed.

Lemma errors_app (a b : list Call) : errors (a ++ b) = errors a ++ errors b.
Proof. apply flat_map_app. Qed.

Lemma on_pendingRequest_trace (requestId : Z) f (s : State) :
  trace (snd (on_pendingRequest requestId f s)) = trace s.
Proof. reflexivity. Qed.

Lemma on_pendingResponse_trace (requestId : Z) f (s : State) :
  trace (snd (on_pendingResponse requestId f s)) = trace s.
Proof. reflexivity. Qed.

Lemma getPendingResponse_trace (requestId : Z) (s : State) :
  trace (snd (getPendingResponse requestId s)) = trace s.
Proof.
  unfold getPendingResponse, mbind, M_bind, read; simpl.
  now destruct (pendingResponses (this s) !! requestId).
Qed.

Section Records.

Context `{Lib} `{JsRuntime} `{Host}.

(** Every path through the request assembler, with the calls it makes. *)
Lemma onBeforeSendHeadersHandler_calls
    (details : OnBeforeSendHeaders.details) (crawl : Z) (s : State) :
  exists calls,
    trace (snd (onBeforeSendHeadersHandler details crawl s)) = trace s ++ calls
    /\ stored calls = []
    /\ (length (errors calls) <= 1)%nat
    /\ match await_tabs_get (OnBeforeSendHeaders.tabId details) with
       | inr _ =>
           exists update,
             saved calls = [("http_requests", RequestRow update)]
             /\ last calls = Some (saveRecord "http_requests" (RequestRow update))
             /\ HttpRequest.request_id update = OnBeforeSendHeaders.requestId details
             /\ HttpRequest.crawl_id update = crawl
       | inl _ =>
           saved calls = []
           /\ last calls = Some (tabs_get (OnBeforeSendHeaders.tabId details))
       end.
Proof.
  unfold onBeforeSendHeadersHandler.
  destruct (scanRequestHeaders _) as [[headers encodingType] isOcsp].
  destruct (String.eqb _ "POST" && negb isOcsp).
  - unfold processPost, mbind, M_bind.
    pose proof (getPendingRequest_trace (OnBeforeSendHeaders.requestId details) s)
      as Ht.
    destruct (getPendingRequest _ s) as [p s1]; simpl in Ht |- *.
    destruct (awaitResolved _ p 1000) as [d|];
      [destruct (OnBeforeRequest.requestBody d)|];
      destruct (await_tabs_get _);
      simpl; rewrite <- ?app_assoc, ?app_nil_r, Ht; simpl;
      eexists; (split; [reflexivity|]); simpl;
      (split; [reflexivity|]); (split; [lia|]);
      try (split; reflexivity);
      eexists; repeat split.
  - unfold mbind, M_bind, mret, M_ret, call.
    destruct (await_tabs_get _); simpl; rewrite <- ?app_assoc, ?app_nil_r;
      eexists; (split; [reflexivity|]); simpl;
      (split; [reflexivity|]); (split; [lia|]);
      try (split; reflexivity);
      eexists; repeat split.
Qed.

(** Every path through the response assembler, with the calls it makes. *)
Lemma onCompletedHandler_calls
    (details : OnCompleted.details) (crawl : Z) (js all : bool) (s : State) :
  exists calls update,
    trace (snd (onCompletedHandler details crawl js all s)) = trace s ++ calls
    /\ saved calls = [("http_responses", ResponseRow update)]
    /\ (length (stored calls) + length (errors calls) <= 1)%nat
    /\ (capturePolicy js all (OnCompleted.type details) = false ->
        calls = [saveRecord "http_responses" (ResponseRow update)])
    /\ last calls = Some (saveRecord "http_responses" (ResponseRow update))
    /\ HttpResponse.request_id update = OnCompleted.requestId details
    /\ HttpResponse.crawl_id update = crawl
    /\ (HttpResponse.content_hash update = None
        \/ HttpResponse.content_hash update = Some "<error>").
Proof.
  rewrite onCompletedHandler_policy.
  assert (Hid : HttpResponse.request_id (responseUpdate details crawl)
                = OnCompleted.requestId details
                /\ HttpResponse.crawl_id (responseUpdate details crawl) = crawl).
  { unfold responseUpdate.
    now destruct (match OnCompleted.responseHeaders details with
                  | Some hs => _ | None => _ end). }
  destruct Hid as [Hid Hcrawl].
  pose proof (responseUpdate_no_hash details crawl) as Hnone.
  destruct (capturePolicy js all (OnCompleted.type details)).
  - unfold logWithResponseBody, mbind, M_bind.
    pose proof (getPendingResponse_trace (OnCompleted.requestId details) s) as Ht.
    destruct (getPendingResponse _ s) as [p s1]; simpl in Ht |- *.
    destruct (retrieve p) as [err|[respBody contentHash]];
      unfold call; simpl; rewrite <- ?app_assoc, Ht; simpl;
      eexists _, _; (split; [reflexivity|]); simpl;
      repeat split; auto; try lia; try discriminate.
  - unfold call; simpl.
    eexists _, _; (split; [reflexivity|]); simpl; repeat split; auto.
Qed.

(** X4: on every path (any method, OCSP or not, wait answered or timed
    out, body present or not) the request assembler logs at most one error
    and sends nothing to [saveContent]; calls made earlier stay in the trace.
    When the tab lookup is answered it sends exactly one record, to
    [http_requests], as its last call, and the record carries the event's
    transaction id and the crawl id.  When the lookup is rejected it sends no
    record at all and the lookup is its last call. *)
Theorem request_assembler_record_follows_the_lookup
    (details : OnBeforeSendHeaders.details) (crawl : Z) (s : State) :
  exists calls,
    trace (snd (onBeforeSendHeadersHandler details crawl s)) = trace s ++ calls
    /\ stored calls = []
    /\ (length (errors calls) <= 1)%nat
    /\ match await_tabs_get (OnBeforeSendHeaders.tabId details) with
       | inr _ =>
           exists update,
             saved calls = [("http_requests", RequestRow update)]
             /\ last calls = Some (saveRecord "http_requests" (RequestRow update))
             /\ HttpRequest.request_id update = OnBeforeSendHeaders.requestId details
             /\ HttpRequest.crawl_id update = crawl
       | inl _ =>
           saved calls = []
           /\ last calls = Some (tabs_get (OnBeforeSendHeaders.tabId details))
       end.
Proof. apply onBeforeSendHeadersHandler_calls. Qed.

(** X5: on every path (capture asked for or not, retrieval succeeding or
    failing) the response assembler sends exactly one record, to
    [http_responses], as its last call, with the event's transaction id and
    the crawl id; before it there is at most one other sink call, a
    [saveContent] or a [logError], and none at all when the capture policy
    does not hold; the record's [content_hash] is either absent or the
    sentinel. *)
Theorem response_assembler_emits_exactly_one_record
    (details : OnCompleted.details) (crawl : Z) (js all : bool) (s : State) :
  exists calls update,
    trace (snd (onCompletedHandler details crawl js all s)) = trace s ++ calls
    /\ saved calls = [("http_responses", ResponseRow update)]
    /\ (length (stored calls) + length (errors calls) <= 1)%nat
    /\ (capturePolicy js all (OnCompleted.type details) = false ->
        calls = [saveRecord "http_responses" (ResponseRow update)])
    /\ last calls = Some (saveRecord "http_responses" (ResponseRow update))
    /\ HttpResponse.request_id update = OnCompleted.requestId details
    /\ HttpResponse.crawl_id update = crawl
    /\ (HttpResponse.content_hash update = None
        \/ HttpResponse.content_hash update = Some "<error>").
Proof. apply onCompletedHandler_calls. Qed.

End Records.

(** ** Paths through the request assembler *)

Section Paths.

Context `{Lib} `{JsRuntime} `{Host}.

(** X6: a request whose method is not exactly the string [POST] is never
    treated as an upload: the assembler leaves the buffers as they are, does
    not wait and goes straight to the tab lookup; when the lookup is answered
    it sends the record, which has the scanned headers and no [post_body],
    and when the lookup is rejected it makes no further call. *)
Theorem other_methods_skip_the_buffer
    (details : OnBeforeSendHeaders.details) (crawl : Z) (s : State) :
  let tabId := OnBeforeSendHeaders.tabId details in
  OnBeforeSendHeaders.method details <> "POST" ->
  onBeforeSendHeadersHandler details crawl s
  = (tt, logged s
           (tabs_get tabId
            :: match await_tabs_get tabId with
               | inr tab =>
                   [saveRecord "http_requests"
                      (RequestRow
                         (requestUpdate details crawl
                            (map header_pair (headers_of details)) None tab))]
               | inl _ => []
               end)).
Proof. intros tabId Hm. apply handler_without_post. now left. Qed.

(** The assembler on a POST whose wait is answered. *)
Lemma handler_resolved
    (details : OnBeforeSendHeaders.details) (crawl : Z) (s : State)
    (d : OnBeforeRequest.details) :
  let requestId := OnBeforeSendHeaders.requestId details in
  let encodingType := encodingType_spec (headers_of details) in
  OnBeforeSendHeaders.method details = "POST" ->
  ~ isOcspRequest (headers_of details) ->
  awaitResolved requestId (fst (getPendingRequest requestId s)) 1000 = Some d ->
  onBeforeSendHeadersHandler details crawl s
  = (tt, logged (snd (getPendingRequest requestId s))
           (wait_resolvedWithinTimeout requestId 1000
            :: match OnBeforeRequest.requestBody d with
               | Some _ =>
                   let postObj := parsePostRequest d encodingType in
                   run_parsePostRequest d encodingType
                   :: lookup_and_save details crawl
                        (map header_pair (headers_of details)
                         ++ match post_headers postObj with
                            | Some ph => recoveredHeaders ph
                            | None => []
                            end)
                        (parsed_post_body postObj)
               | None =>
                   lookup_and_save details crawl
                     (map header_pair (headers_of details)) None
               end)).
Proof.
  intros requestId encodingType Hm Hno Hw. subst requestId encodingType.
  rewrite (handler_with_post details crawl s Hm Hno).
  rewrite (processPost_resolved details _ _ s d Hw).
  destruct (OnBeforeRequest.requestBody d); cbv zeta;
    unfold logged; simpl; now rewrite <- app_assoc.
Qed.

(** X7: when the wait of a POST is answered but the body-stage event has
    no [requestBody], the parser is not run and no error is logged: after the
    wait comes the tab lookup, and the record sent when the lookup is
    answered has the scanned headers and no [post_body]. *)
Theorem post_without_request_body
    (details : OnBeforeSendHeaders.details) (crawl : Z) (s : State)
    (d : OnBeforeRequest.details) :
  let requestId := OnBeforeSendHeaders.requestId details in
  let tabId := OnBeforeSendHeaders.tabId details in
  OnBeforeSendHeaders.method details = "POST" ->
  ~ isOcspRequest (headers_of details) ->
  awaitResolved requestId (fst (getPendingRequest requestId s)) 1000 = Some d ->
  OnBeforeRequest.requestBody d = None ->
  onBeforeSendHeadersHandler details crawl s
  = (tt, logged (snd (getPendingRequest requestId s))
           (wait_resolvedWithinTimeout requestId 1000
            :: tabs_get tabId
            :: match await_tabs_get tabId with
               | inr tab =>
                   [saveRecord "http_requests"
                      (RequestRow
                         (requestUpdate details crawl
                            (map header_pair (headers_of details)) None tab))]
               | inl _ => []
               end)).
Proof.
  intros requestId tabId Hm Hno Hw Hb.
  rewrite (handler_resolved details crawl s d Hm Hno Hw), Hb. reflexivity.
Qed.

(** X8: when the wait of a POST is answered with a fragment that has a
    [requestBody], the parser is run once, on that fragment and with the
    scanned encoding type, and then the tab is looked up; in the record sent
    when the lookup is answered, [post_body] is the parser's [post_body],
    absent when the parser returned none, and when the parser returned no
    [post_headers] the record's headers are the scanned ones alone. *)
Theorem post_body_is_the_parsers
    (details : OnBeforeSendHeaders.details) (crawl : Z) (s : State)
    (d : OnBeforeRequest.details) (rb : RequestBody) :
  let requestId := OnBeforeSendHeaders.requestId details in
  let tabId := OnBeforeSendHeaders.tabId details in
  let encodingType := encodingType_spec (headers_of details) in
  let postObj := parsePostRequest d encodingType in
  OnBeforeSendHeaders.method details = "POST" ->
  ~ isOcspRequest (headers_of details) ->
  awaitResolved requestId (fst (getPendingRequest requestId s)) 1000 = Some d ->
  OnBeforeRequest.requestBody d = Some rb ->
  exists update : Tab -> HttpRequest.t,
    onBeforeSendHeadersHandler details crawl s
    = (tt, logged (snd (getPendingRequest requestId s))
             (wait_resolvedWithinTimeout requestId 1000
              :: run_parsePostRequest d encodingType
              :: tabs_get tabId
              :: match await_tabs_get tabId with
                 | inr tab => [saveRecord "http_requests" (RequestRow (update tab))]
                 | inl _ => []
                 end))
    /\ (forall tab, HttpRequest.post_body (update tab) = parsed_post_body postObj)
    /\ (post_headers postObj = None ->
        forall tab,
          HttpRequest.headers (update tab)
          = JSON_stringify_headers (map header_pair (headers_of details))).
Proof.
  intros requestId tabId encodingType postObj Hm Hno Hw Hb.
  rewrite (handler_resolved details crawl s d Hm Hno Hw), Hb.
  exists (requestUpdate details crawl
            (map header_pair (headers_of details)
             ++ match post_headers postObj with
                | Some ph => recoveredHeaders ph
                | None => []
                end)
            (parsed_post_body postObj)).
  split; [reflexivity|]. split; [reflexivity|].
  intros Hp tab. simpl. rewrite Hp. now rewrite app_nil_r.
Qed.

End Paths.

(** A request sent with the method written in lower case, from tab 3. *)
Lemma other_methods_skip_the_buffer_witness :
  let details := sample_headers "post" [form_header] in
  OnBeforeSendHeaders.method details <> "POST"
  /\ @onBeforeSendHeadersHandler Sample.lib Sample.js Sample.host details 7 initial
     = (tt, logged initial
              [tabs_get 3;
               saveRecord "http_requests"
                 (RequestRow
                    (@requestUpdate Sample.lib Sample.js details 7
                       (map (@header_pair Sample.lib) (headers_of details)) None
                       {| tab_url := Some "https://a.example/" |}))]).
Proof.
  intros details.
  assert (Hm : OnBeforeSendHeaders.method details <> "POST") by discriminate.
  split; [exact Hm|].
  exact (@other_methods_skip_the_buffer Sample.lib Sample.js Sample.host
           details 7 initial Hm).
Defined.

(** The same request made outside a tab: the lookup is rejected and the
    lookup is the assembler's only call. *)
Example request_outside_tab_is_not_recorded :
  @onBeforeSendHeadersHandler Sample.lib Sample.js Sample.host
    (sample_headers_outside_tab "GET" []) 7 initial
  = (tt, logged initial [tabs_get (-1)]).
Proof. reflexivity. Qed.

Lemma post_without_request_body_witness :
  let details := sample_headers "POST" [form_header] in
  let d := sample_beforeRequest "xmlhttprequest" None in
  OnBeforeSendHeaders.method details = "POST"
  /\ ~ isOcspRequest (headers_of details)
  /\ @awaitResolved Sample.host 42
       (fst (getPendingRequest 42 empty_upload_seen)) 1000 = Some d
  /\ OnBeforeRequest.requestBody d = None
  /\ @onBeforeSendHeadersHandler Sample.lib Sample.js Sample.host
       details 7 empty_upload_seen
     = (tt, logged (snd (getPendingRequest 42 empty_upload_seen))
              [wait_resolvedWithinTimeout 42 1000;
               tabs_get 3;
               saveRecord "http_requests"
                 (RequestRow
                    (@requestUpdate Sample.lib Sample.js details 7
                       (map (@header_pair Sample.lib) (headers_of details)) None
                       {| tab_url := Some "https://a.example/" |}))]).
Proof.
  intros details d.
  split; [reflexivity|]. split; [exact form_post_not_ocsp|].
  split; [reflexivity|]. split; [reflexivity|].
  exact (@post_without_request_body Sample.lib Sample.js Sample.host
           details 7 empty_upload_seen d eq_refl form_post_not_ocsp
           eq_refl eq_refl).
Defined.

Lemma post_body_is_the_parsers_witness :
  let details := sample_headers "POST" [form_header] in
  OnBeforeSendHeaders.method details = "POST"
  /\ ~ isOcspRequest (headers_of details)
  /\ @awaitResolved Sample.host 42 (fst (getPendingRequest 42 upload_seen)) 1000
     = Some sample_upload
  /\ is_Some (OnBeforeRequest.requestBody sample_upload)
  /\ exists update : Tab -> HttpRequest.t,
       @onBeforeSendHeadersHandler Sample.lib Sample.js Sample.host
         details 7 upload_seen
       = (tt, logged (snd (getPendingRequest 42 upload_seen))
                [wait_resolvedWithinTimeout 42 1000;
                 run_parsePostRequest sample_upload
                   (encodingType_spec (headers_of details));
                 tabs_get 3;
                 saveRecord "http_requests"
                   (RequestRow (update {| tab_url := Some "https://a.example/" |}))])
       /\ (forall tab, HttpRequest.post_body (update tab) = Some "{}").
Proof.
  intros details.
  split; [reflexivity|]. split; [exact form_post_not_ocsp|].
  split; [reflexivity|]. split; [eexists; reflexivity|].
  destruct (@post_body_is_the_parsers Sample.lib Sample.js Sample.host
              details 7 upload_seen sample_upload _
              eq_refl form_post_not_ocsp eq_refl eq_refl)
    as (update & E & Eb & _).
  exists update. split; [exact E|exact Eb].
Defined.

(** ** The response header scan *)

Section ResponseHeaders.

Context `{Lib} `{JsRuntime}.

Lemma scanResponse_fold (hs : list HttpHeader) :
  forall headers location,
    fold_left scanResponseHeader hs (headers, location)
    = (headers ++ map header_pair hs,
       match last (List.filter
                     (fun h => bool_decide (toLowerCase (name h) = "location"))
                     hs) with
       | Some h => value h
       | None => location
       end).
Proof.
  induction hs as [|h hs IH]; intros headers location.
  - simpl. now rewrite app_nil_r.
  - cbn [fold_left List.filter map]. unfold scanResponseHeader at 2.
    rewrite IH, <- app_assoc, <- eqb_bool_decide. cbn [app].
    destruct (String.eqb (toLowerCase (name h)) "location"); [|reflexivity].
    rewrite last_cons. now destruct (last (List.filter _ hs)).
Qed.

(** X9: the response record lists every response header of the event,
    escaped and in order, and its [location] is the escaped value of the
    last header whose lower-cased name is [location], whatever the case it
    was sent in; without such a header, and for an event without
    [responseHeaders], it is the escaped empty string. *)
Theorem response_headers_and_location
    (details : OnCompleted.details) (crawl : Z) :
  let hs := default [] (OnCompleted.responseHeaders details) in
  HttpResponse.headers (responseUpdate details crawl)
  = JSON_stringify_headers (map header_pair hs)
  /\ HttpResponse.location (responseUpdate details crawl)
     = escapeString (Some (location_spec hs))
  /\ ((forall h, In h hs -> toLowerCase (name h) <> "location")
      -> HttpResponse.location (responseUpdate details crawl)
         = escapeString (Some "")).
Proof.
  intros hs. subst hs. unfold responseUpdate, location_spec.
  destruct (OnCompleted.responseHeaders details) as [hs|]; simpl.
  - rewrite scanResponse_fold. simpl. split; [reflexivity|]. split; [reflexivity|].
    intros Hnone.
    replace (List.filter _ hs) with (@nil HttpHeader); [reflexivity|].
    symmetry. induction hs as [|h hs IH]; [reflexivity|]. simpl.
    rewrite bool_decide_eq_false_2 by (apply Hnone; now left).
    apply IH. intros h' Hin. apply Hnone. now right.
  - repeat split.
Qed.

End ResponseHeaders.

(** ** [run], from any state *)

Lemma install_eq (ch : Channel) (crawl : Z) (js all : bool)
    (extraInfoSpec : list string) (i : HttpInstrument)
    (subs : list Subscription) (n : nat) (tr : list Call) :
  let l := {| listener_id := n; crawlID := crawl;
              saveJavascript := js; saveAllContent := all |} in
  let sb := {| sub_channel := ch; sub_listener := l;
               sub_filter := filter; sub_extraInfoSpec := extraInfoSpec |} in
  install ch crawl js all extraInfoSpec
    {| this := i; subscriptions := subs; allocated := n; trace := tr |}
  = (tt, {| this := set_listener ch l i;
            subscriptions :=
              if existsb (holds ch l) subs then subs else subs ++ [sb];
            allocated := S n;
            trace := tr ++ [addListener sb] |}).
Proof. reflexivity. Qed.

Lemma holds_fresh (ch : Channel) (l : Listener) (subs : list Subscription)
    (n : nat) :
  Forall (fun sb => (listener_id (sub_listener sb) < n)%nat) subs ->
  (n <= listener_id l)%nat ->
  existsb (holds ch l) subs = false.
Proof.
  intros Hf Hl. induction Hf as [|sb subs Hsb Hf IH]; [reflexivity|].
  simpl. rewrite IH, orb_false_r. unfold holds.
  replace (Nat.eqb _ _) with false; [apply andb_false_r|].
  symmetry. apply Nat.eqb_neq. lia.
Qed.

Lemma install_fresh (ch : Channel) (crawl : Z) (js all : bool)
    (extraInfoSpec : list string) (i : HttpInstrument)
    (subs : list Subscription) (n : nat) (tr : list Call) :
  Forall (fun sb => (listener_id (sub_listener sb) < n)%nat) subs ->
  let l := {| listener_id := n; crawlID := crawl;
              saveJavascript := js; saveAllContent := all |} in
  let sb := {| sub_channel := ch; sub_listener := l;
               sub_filter := filter; sub_extraInfoSpec := extraInfoSpec |} in
  install ch crawl js all extraInfoSpec
    {| this := i; subscriptions := subs; allocated := n; trace := tr |}
  = (tt, {| this := set_listener ch l i; subscriptions := subs ++ [sb];
            allocated := S n; trace := tr ++ [addListener sb] |})
  /\ Forall (fun sb => (listener_id (sub_listener sb) < S n)%nat) (subs ++ [sb]).
Proof.
  intros Hf l sb. rewrite install_eq. fold l.
  rewrite (holds_fresh ch l subs n Hf) by (simpl; lia).
  split; [reflexivity|].
  apply Forall_app. split.
  - eapply Forall_impl; [exact Hf|]. simpl. intros; lia.
  - constructor; [simpl; lia|constructor].
Qed.

(** [run] in one equation, for a state whose listener identities are not
    reused. *)
Lemma run_eq (crawl : Z) (js all : bool) (s : State) :
  identities_fresh s ->
  run crawl js all s
  = (tt, {| this := with_run_listeners crawl js all (allocated s) (this s);
            subscriptions :=
              subscriptions s
              ++ map (run_subscription crawl js all (allocated s)) channels;
            allocated := 4 + allocated s;
            trace :=
              trace s
              ++ map (fun ch => addListener
                                  (run_subscription crawl js all (allocated s) ch))
                     channels |}).
Proof.
  destruct s as [i subs n tr]. unfold identities_fresh; simpl. intros Hf.
  unfold run, mbind, M_bind.
  repeat match goal with
         | Hfresh : Forall _ ?subs'
           |- context [install ?ch ?c ?j ?a ?x
                         {| this := ?i'; subscriptions := ?subs';
                            allocated := ?n'; trace := ?tr' |}] =>
             let Hnext := fresh "Hf" in
             destruct (install_fresh ch c j a x i' subs' n' tr' Hfresh)
               as [-> Hnext];
             clear Hfresh; cbv beta iota
         end.
  rewrite <- !app_assoc. destruct i. reflexivity.
Qed.

(** X10: on a state whose listener identities are not reused, [run]
    creates four new listeners, stores each in the field of its channel and
    registers each on its channel, after the registrations that were there:
    all four with the filter for all URLs and the twenty resource types,
    the pre-request one with [blocking] exactly when a capture flag is on;
    the four [addListener] calls appear in the order of the channels; the
    buffers are not touched; identities stay unused. *)
Theorem run_registers_four_listeners (crawl : Z) (js all : bool) (s : State) :
  identities_fresh s ->
  let s' := snd (run crawl js all s) in
  let n := allocated s in
  (forall ch, listener_field ch (this s') = Some (run_listener crawl js all n ch))
  /\ subscriptions s'
     = subscriptions s ++ map (run_subscription crawl js all n) channels
  /\ (forall ch,
        sub_filter (run_subscription crawl js all n ch)
        = {| urls := ["<all_urls>"]; types := allTypes |}
        /\ (In "blocking" (sub_extraInfoSpec (run_subscription crawl js all n ch))
            <-> ch = onBeforeRequest /\ (js = true \/ all = true)))
  /\ trace s'
     = trace s
       ++ map (fun ch => addListener (run_subscription crawl js all n ch)) channels
  /\ pendingRequests (this s') = pendingRequests (this s)
  /\ pendingResponses (this s') = pendingResponses (this s)
  /\ identities_fresh s'.
Proof.
  intros Hf s' n. subst s' n. rewrite (run_eq crawl js all s Hf). simpl.
  split; [intros []; reflexivity|]. split; [reflexivity|].
  split.
  { intros ch. split; [reflexivity|].
    destruct ch, js, all; simpl; split;
      intuition (try discriminate; try congruence). }
  split; [reflexivity|]. split; [reflexivity|]. split; [reflexivity|].
  unfold identities_fresh in *. simpl. apply Forall_app. split.
  - eapply Forall_impl; [exact Hf|]. simpl. intros; lia.
  - repeat constructor; simpl; lia.
Qed.

Lemma run_registers_four_listeners_witness :
  identities_fresh initial
  /\ subscriptions (snd (run 7 true false initial))
     = subscriptions initial ++ map (run_subscription 7 true false 0) channels.
Proof.
  assert (Hf : identities_fresh initial) by constructor.
  split; [exact Hf|].
  apply (run_registers_four_listeners 7 true false initial Hf).
Defined.

(** ** Started once, started twice, stopped *)

Lemma fresh_identities pr ps n tr : identities_fresh (fresh pr ps n tr).
Proof. constructor. Qed.

(** Decides the comparisons of listener identities that are left after
    evaluation. *)
Ltac eqb_lia :=
  repeat match goal with
         | |- context [Nat.eqb ?a ?b] =>
             first
               [ replace (Nat.eqb a b) with true
                   by (symmetry; apply Nat.eqb_eq; lia)
               | replace (Nat.eqb a b) with false
                   by (symmetry; apply Nat.eqb_neq; lia) ]
         end.

Lemma run_fresh_state (crawl : Z) (js all : bool) pr ps n tr :
  snd (run crawl js all (fresh pr ps n tr))
  = {| this := with_run_listeners crawl js all n (never_run pr ps);
       subscriptions := map (run_subscription crawl js all n) channels;
       allocated := 4 + n;
       trace := tr ++ map (fun ch => addListener
                                       (run_subscription crawl js all n ch))
                          channels |}.
Proof. now rewrite (run_eq _ _ _ _ (fresh_identities pr ps n tr)). Qed.

Lemma active_after_run (crawl : Z) (js all : bool) (n : nat) (ch : Channel)
    (s : State) :
  subscriptions s = map (run_subscription crawl js all n) channels ->
  active ch s = [run_listener crawl js all n ch].
Proof. intros E. unfold active. rewrite E. now destruct ch. Qed.

Section StartStop.

Context `{Lib} `{JsRuntime} `{Host}.

Lemma deliver_single (e : Event) (l : Listener) (s : State) :
  active (channel_of e) s = [l] -> deliver e s = invoke l e s.
Proof. intros E. unfold deliver. now rewrite E. Qed.

Lemma deliver_none (e : Event) (s : State) :
  subscriptions s = [] -> deliver e s = (tt, s).
Proof. intros E. unfold deliver, active. now rewrite E. Qed.

(** X11: handling events, by one listener or by all registered ones,
    never registers or removes a listener, never changes a listener field
    and never creates a function: the registrations, the four fields and
    the allocator are the same before and after, for any number of
    events. *)
Theorem events_keep_registrations
    (l : Listener) (e : Event) (evs : list Event) (s : State) :
  same_wiring s (snd (invoke l e s))
  /\ same_wiring s (snd (deliver e s))
  /\ same_wiring s (after_events evs s).
Proof.
  split; [apply wiring_invoke|]. split; [apply wiring_deliver|].
  apply wiring_after_events.
Qed.

(** X12: after [run] on a fresh instrument, and after any events since,
    the browser's delivery of an event amounts to one call of the listener
    [run] created for the event's channel, which carries the [crawlID] and
    the capture flags given to [run]. *)
Theorem events_reach_the_listener_of_run
    (crawl : Z) (js all : bool) pr ps (n : nat) (tr : list Call)
    (evs : list Event) (e : Event) :
  let s := after_events evs (snd (run crawl js all (fresh pr ps n tr))) in
  let l := run_listener crawl js all n (channel_of e) in
  active (channel_of e) s = [l]
  /\ deliver e s = invoke l e s
  /\ crawlID l = crawl /\ saveJavascript l = js /\ saveAllContent l = all.
Proof.
  intros s l.
  assert (E : active (channel_of e) s = [l]).
  { apply active_after_run. subst s.
    destruct (wiring_after_events evs
                (snd (run crawl js all (fresh pr ps n tr)))) as (-> & _).
    now rewrite run_fresh_state. }
  split; [exact E|]. split; [now apply deliver_single|]. repeat split.
Qed.

Lemma stopped_no_registration
    (crawl : Z) (js all : bool) pr ps (n : nat) (tr : list Call)
    (evs : list Event) :
  subscriptions
    (snd (cleanup (after_events evs (snd (run crawl js all (fresh pr ps n tr))))))
  = [].
Proof.
  set (s1 := snd (run _ _ _ _)).
  rewrite cleanup_eq. cbn [snd subscriptions this].
  destruct (wiring_after_events evs s1) as (Es & _ & Ef).
  rewrite Es.
  rewrite (List.filter_ext _ _ (fun sb => foreign_wiring _ _ sb Ef)).
  apply run_fresh.
Qed.

(** X13: once an instrument that was started once has been stopped, no
    event is handled any more: whatever the browser delivers, the state,
    the buffers and the trace stay as [cleanup] left them. *)
Theorem stopped_instrument_ignores_events
    (crawl : Z) (js all : bool) pr ps (n : nat) (tr : list Call)
    (before after : list Event) (e : Event) :
  let s := snd (cleanup (after_events before
                           (snd (run crawl js all (fresh pr ps n tr))))) in
  deliver e s = (tt, s) /\ after_events after s = s.
Proof.
  intros s.
  assert (E : subscriptions s = []) by apply stopped_no_registration.
  split; [now apply deliver_none|].
  induction after as [|e' evs IH]; [reflexivity|].
  simpl. now rewrite (deliver_none e' s E).
Qed.

(** X14: [cleanup] unregisters the listeners of the latest [run] only.
    After two calls of [run] the fields hold the listeners of the second
    call; [cleanup] removes those four, and the four listeners of the first
    call stay registered: events keep reaching them, with the arguments of
    the first call. *)
Theorem cleanup_leaves_listeners_of_an_earlier_run
    (crawl crawl' : Z) (js all js' all' : bool) pr ps (n : nat) (tr : list Call)
    (e : Event) :
  let s1 := snd (run crawl js all (fresh pr ps n tr)) in
  let s2 := snd (run crawl' js' all' s1) in
  let s3 := snd (cleanup s2) in
  subscriptions s3 = map (run_subscription crawl js all n) channels
  /\ deliver e s3 = invoke (run_listener crawl js all n (channel_of e)) e s3
  /\ removals (this s2)
     = map (fun ch => removeListener ch (run_listener crawl' js' all' (4 + n) ch))
           channels.
Proof.
  intros s1 s2 s3.
  assert (E1 : s1 = {| this := with_run_listeners crawl js all n (never_run pr ps);
                       subscriptions := map (run_subscription crawl js all n) channels;
                       allocated := 4 + n;
                       trace := tr ++ map (fun ch => addListener
                                             (run_subscription crawl js all n ch))
                                          channels |})
    by apply run_fresh_state.
  assert (F1 : identities_fresh s1).
  { rewrite E1. unfold identities_fresh; simpl. repeat constructor; simpl; lia. }
  assert (E3 : subscriptions s3 = map (run_subscription crawl js all n) channels).
  { subst s3 s2. rewrite cleanup_eq, (run_eq _ _ _ _ F1), E1. simpl.
    unfold foreign, holds; simpl. eqb_lia. reflexivity. }
  split; [exact E3|]. split.
  - apply deliver_single. now apply (active_after_run crawl js all n).
  - subst s2. rewrite (run_eq _ _ _ _ F1), E1. reflexivity.
Qed.

End StartStop.

(** ** Which events the gateway lets through *)

(** X15: the extension test is a substring test on [originUrl]: it holds
    exactly when the event has an [originUrl] in which the text
    [moz-extension://] occurs, at the start or anywhere else; an event
    without [originUrl], or with the empty one, passes the gateway. *)
Theorem extension_test_is_a_substring_test :
  (forall o, requestStemsFromExtension o = true
             <-> exists u, o = Some u /\ JsString.occurs "moz-extension://" u)
  /\ (forall pre post,
        requestStemsFromExtension (Some (pre +:+ "moz-extension://" +:+ post))
        = true)
  /\ requestStemsFromExtension None = false
  /\ requestStemsFromExtension (Some "") = false.
Proof.
  split; [apply requestStemsFromExtension_spec|].
  split; [|split; reflexivity].
  intros pre post. apply requestStemsFromExtension_spec.
  eexists. split; [reflexivity|]. now exists pre, post.
Qed.

Section EndToEnd.

Context `{Lib} `{JsRuntime} `{Host}.

(** X16: while the four listeners of one [run] are the registered ones,
    whatever the buffers hold and whatever has been sent so far, the delivery
    of an event that does not stem from the extension and whose listener
    works without waiting has sent its record by the time the listener
    returns: a pre-request event sends none; a redirect makes one call, the
    [http_redirects] row with the event's transaction id and the [crawlID]
    given to [run]; a completion for which the capture policy does not hold
    makes one call, the [http_responses] row with the event's transaction id
    and that [crawlID]. *)
Theorem listeners_that_do_not_wait_send_their_record
    (crawl : Z) (js all : bool) (n : nat) (s : State) :
  subscriptions s = map (run_subscription crawl js all n) channels ->
  (forall d,
      requestStemsFromExtension (OnBeforeRequest.originUrl d) = false ->
      saved (trace (snd (deliver (BeforeRequest d) s))) = saved (trace s))
  /\ (forall d,
        requestStemsFromExtension (OnBeforeRedirect.originUrl d) = false ->
        exists r,
          trace (snd (deliver (BeforeRedirect d) s))
          = trace s ++ [saveRecord "http_redirects" (RedirectRow r)]
          /\ HttpRedirect.old_request_id r = OnBeforeRedirect.requestId d
          /\ HttpRedirect.crawl_id r = crawl)
  /\ (forall d,
        requestStemsFromExtension (OnCompleted.originUrl d) = false ->
        capturePolicy js all (OnCompleted.type d) = false ->
        exists r,
          trace (snd (deliver (Completed d) s))
          = trace s ++ [saveRecord "http_responses" (ResponseRow r)]
          /\ HttpResponse.request_id r = OnCompleted.requestId d
          /\ HttpResponse.crawl_id r = crawl).
Proof.
  intros Hsubs.
  assert (E : forall e, deliver e s
                        = invoke (run_listener crawl js all n (channel_of e)) e s).
  { intros e. apply deliver_single. now apply active_after_run. }
  split; [|split].
  - intros d Hx. rewrite E. cbn [invoke channel_of].
    unfold mbind, M_bind.
    rewrite (onBeforeRequestListener_body_eq _ d s Hx).
    cbn [snd trace mret M_ret]. rewrite saved_app.
    destruct (capturePolicy _ _ _); simpl; now rewrite app_nil_r.
  - intros d Hx. rewrite E. cbn [invoke channel_of].
    unfold onBeforeRedirectListener_body. rewrite Hx.
    eexists. split; [reflexivity|]. split; reflexivity.
  - intros d Hx Hp. rewrite E. cbn [invoke channel_of].
    unfold onCompletedListener_body. rewrite Hx.
    unfold mbind, M_bind.
    pose proof (getPendingResponse_trace (OnCompleted.requestId d) s) as T1.
    destruct (getPendingResponse _ s) as [p s1]; simpl in T1.
    pose proof (on_pendingResponse_trace (OnCompleted.requestId d)
                  (PendingResponse.resolveOnCompletedEventDetails d) s1) as T2.
    destruct (on_pendingResponse _ _ s1) as [u s2]; simpl in T2.
    destruct (onCompletedHandler_calls d crawl js all s2)
      as (calls & r & Et & _ & _ & Ec & _ & Eid & Ecrawl & _).
    exists r. split; [|split; assumption].
    cbn [run_listener crawlID saveJavascript saveAllContent].
    rewrite Et, (Ec Hp), T2, T1. reflexivity.
Qed.

End EndToEnd.

(** A redirect delivered to an instrument started with crawl id 7. *)
Lemma listeners_that_do_not_wait_send_their_record_witness :
  let s := snd (run 7 false false (fresh ∅ ∅ 0 [])) in
  subscriptions s = map (run_subscription 7 false false 0) channels
  /\ requestStemsFromExtension (OnBeforeRedirect.originUrl (sample_redirect (Some "https://a.example/"))) = false
  /\ exists r,
       trace (snd (@deliver Sample.lib Sample.js Sample.host
                     (BeforeRedirect (sample_redirect (Some "https://a.example/"))) s))
       = trace s ++ [saveRecord "http_redirects" (RedirectRow r)]
       /\ HttpRedirect.old_request_id r = OnBeforeRedirect.requestId (sample_redirect (Some "https://a.example/"))
       /\ HttpRedirect.crawl_id r = 7.
Proof.
  intros s.
  assert (Hs : subscriptions s = map (run_subscription 7 false false 0) channels)
    by reflexivity.
  split; [exact Hs|]. split; [reflexivity|].
  destruct (@listeners_that_do_not_wait_send_their_record
              Sample.lib Sample.js Sample.host 7 false false 0%nat s Hs)
    as (_ & Hredirect & _).
  exact (Hredirect (sample_redirect (Some "https://a.example/")) eq_refl).
Defined.

(** * Properties of the script instrument *)

Module JavascriptInstrumentFacts.

Import JavascriptInstrument.

Section Facts.

Context `{Lib} `{JsRuntime} `{JsonArgs}.

(** X17: a message that is not in the namespace
    [javascript-instrumentation], or whose type is neither [logCall] nor
    [logValue], is ignored: the listener returns, nothing is sent to the
    sink and the state is not changed. *)
Theorem other_messages_are_ignored
    (l : Listener) (msg : Message) (sender : MessageSender) (s : State) :
  (namespace msg <> Some "javascript-instrumentation"
   \/ type msg <> Some "logCall" /\ type msg <> Some "logValue") ->
  onMessageListener_body l msg sender s = (Returned, s).
Proof.
  intros Hno. unfold onMessageListener_body.
  destruct Hno as [Hns|[Hc Hv]].
  - rewrite bool_decide_eq_false_2 by exact Hns. now rewrite andb_false_r.
  - destruct (_ && _); [|reflexivity].
    destruct (type msg) as [ty|]; [|reflexivity].
    destruct (String.eqb_spec ty "logCall") as [->|_]; [congruence|].
    destruct (String.eqb_spec ty "logValue") as [->|_]; [congruence|].
    reflexivity.
Qed.

Lemma arguments_of_spec (data : Data.t) (arguments : option string) :
  arguments_of data = inr arguments ->
  (is_Some arguments
   <-> Data.operation data = Some "call"
       /\ exists args, Data.args data = Some args /\ args <> [])
  /\ (forall args, Data.args data = Some args -> is_Some arguments ->
        arguments = Some (escapeString (Some (JSON_stringify_args args)))).
Proof.
  unfold arguments_of.
  destruct (Data.operation data) as [op|].
  - destruct (String.eqb_spec op "call") as [->|Hop].
    + destruct (Data.args data) as [args|]; [|discriminate].
      destruct args as [|a args]; simpl; intros [= <-].
      * split.
        -- split; [intros [? [=]]|]. intros (_ & args' & [= <-] & Hne). congruence.
        -- intros ? _ [? [=]].
      * split.
        -- split; [|eauto]. intros _. split; [reflexivity|].
           eexists. split; [reflexivity|discriminate].
        -- intros args' [= <-] _. reflexivity.
    + intros [= <-]. split.
      * split; [intros [? [=]]|]. intros ([= E] & _). congruence.
      * intros ? _ [? [=]].
  - intros [= <-]. split.
    + split; [intros [? [=]]|]. intros ([=] & _).
    + intros ? _ [? [=]].
Qed.

(** X18: a [logCall] or [logValue] message in the namespace, with data,
    from a sender in a tab (and, for the operation [call], with an [args]
    array) makes the listener send exactly one record to the table
    [javascript]: it carries the listener's crawl id, the nine escaped
    fields of the data (script URL, line, column, function name, eval
    location, call stack, symbol, operation, value), the escaped URLs of the
    sender's frame and tab, and the time stamp of the data as it came; [arguments] is set exactly for the
    operation [call] with a non-empty [args], to the escaped JSON of
    [args]. *)
Theorem logged_operation_is_saved
    (l : Listener) (msg : Message) (sender : MessageSender) (s : State)
    (d : Data.t) (sender_tab : Tab) :
  namespace msg = Some "javascript-instrumentation" ->
  (type msg = Some "logCall" \/ type msg = Some "logValue") ->
  data msg = Some d ->
  tab sender = Some sender_tab ->
  (Data.operation d = Some "call" -> is_Some (Data.args d)) ->
  exists update,
    onMessageListener_body l msg sender s
    = (Returned,
       {| onMessageListener := onMessageListener s;
          subscriptions := subscriptions s;
          allocated := allocated s;
          trace := trace s ++ [saveRecord "javascript" update] |})
    /\ JavascriptOperation.crawl_id update = crawlID l
    /\ JavascriptOperation.script_url update = escapeString (Data.scriptUrl d)
    /\ JavascriptOperation.script_line update = escapeString (Data.scriptLine d)
    /\ JavascriptOperation.script_col update = escapeString (Data.scriptCol d)
    /\ JavascriptOperation.func_name update = escapeString (Data.funcName d)
    /\ JavascriptOperation.script_loc_eval update
       = escapeString (Data.scriptLocEval d)
    /\ JavascriptOperation.call_stack update = escapeString (Data.callStack d)
    /\ JavascriptOperation.symbol update = escapeString (Data.symbol d)
    /\ JavascriptOperation.operation update = escapeString (Data.operation d)
    /\ JavascriptOperation.value update = escapeString (Data.value d)
    /\ JavascriptOperation.time_stamp update = Data.timeStamp d
    /\ JavascriptOperation.document_url update = escapeString (url sender)
    /\ JavascriptOperation.top_level_url update = escapeString (tab_url sender_tab)
    /\ (is_Some (JavascriptOperation.arguments update)
        <-> Data.operation d = Some "call"
            /\ exists args, Data.args d = Some args /\ args <> [])
    /\ (forall args, Data.args d = Some args ->
          is_Some (JavascriptOperation.arguments update) ->
          JavascriptOperation.arguments update
          = Some (escapeString (Some (JSON_stringify_args args)))).
Proof.
  intros Hns Hty Hd Ht Hargs.
  assert (Ha : exists arguments, arguments_of d = inr arguments).
  { unfold arguments_of. destruct (Data.operation d) as [op|]; [|eauto].
    destruct (String.eqb_spec op "call") as [->|_]; [|eauto].
    destruct (Hargs eq_refl) as [args ->].
    destruct (0 <? length args)%nat; eauto. }
  destruct Ha as [arguments Ha].
  destruct (arguments_of_spec d arguments Ha) as [Hiff Hval].
  assert (E : onMessageListener_body l msg sender s
              = processCallsAndValues (crawlID l) (Some d) sender s).
  { unfold onMessageListener_body. rewrite Hns, <- Hd. simpl.
    rewrite ?bool_decide_eq_true_2 by reflexivity.
    destruct Hty as [-> | ->]; reflexivity. }
  rewrite E. unfold processCallsAndValues. rewrite Ht, Ha.
  eexists. split; [reflexivity|]. simpl.
  do 13 (split; [reflexivity|]). split; [exact Hiff|exact Hval].
Qed.

(** X19: when the message has no data, or the sender has no tab, or the
    operation is [call] and the data has no [args], the listener throws
    before it reaches [saveRecord]: nothing is sent to the sink and the
    state is not changed. *)
Theorem incomplete_message_saves_nothing
    (l : Listener) (msg : Message) (sender : MessageSender) (s : State) :
  namespace msg = Some "javascript-instrumentation" ->
  (type msg = Some "logCall" \/ type msg = Some "logValue") ->
  (data msg = None
   \/ tab sender = None
   \/ exists d, data msg = Some d /\ Data.operation d = Some "call"
                /\ Data.args d = None) ->
  exists err, onMessageListener_body l msg sender s = (Thrown err, s).
Proof.
  intros Hns Hty Hbad.
  assert (E : onMessageListener_body l msg sender s
              = processCallsAndValues (crawlID l) (data msg) sender s).
  { unfold onMessageListener_body. rewrite Hns. simpl.
    rewrite ?bool_decide_eq_true_2 by reflexivity.
    destruct Hty as [-> | ->]; reflexivity. }
  rewrite E. unfold processCallsAndValues.
  destruct (data msg) as [d|]; [|eauto].
  destruct (tab sender) as [t|]; [|eauto].
  destruct Hbad as [[=]|[[=]|(d' & [= <-] & Hop & Hargs)]].
  unfold arguments_of. rewrite Hop, Hargs. simpl. eauto.
Qed.

Lemma deliver_message_none (msg : Message) (sender : MessageSender) (s : State) :
  subscriptions s = [] -> deliver msg sender s = s.
Proof. intros E. unfold deliver. now rewrite E. Qed.

(** X20: the listener lifecycle of the script instrument.  [cleanup] on
    an instrument that was never run changes nothing and makes no call.
    [run] on such an instrument, in a browser without message listeners,
    registers one listener, which receives each message once and carries
    the crawl id; one [cleanup] after it, and also two, leave no listener
    registered, and a message delivered then changes nothing. *)
Theorem script_listener_lifecycle :
  (forall subs n tr,
      let s := {| onMessageListener := None; subscriptions := subs;
                  allocated := n; trace := tr |} in
      cleanup s = s)
  /\ (forall crawl n tr msg sender,
        let s := run crawl {| onMessageListener := None; subscriptions := [];
                              allocated := n; trace := tr |} in
        let l := {| listener_id := n; crawlID := crawl |} in
        onMessageListener s = Some l
        /\ subscriptions s = [l]
        /\ trace s = tr ++ [addListener l]
        /\ deliver msg sender s = snd (onMessageListener_body l msg sender s)
        /\ subscriptions (cleanup s) = []
        /\ trace (cleanup s) = trace s ++ [removeListener l]
        /\ subscriptions (cleanup (cleanup s)) = []
        /\ deliver msg sender (cleanup s) = cleanup s).
Proof.
  split; [reflexivity|].
  intros crawl n tr msg sender s l.
  assert (Ec : subscriptions (cleanup s) = []).
  { unfold cleanup, same_listener; simpl. now rewrite Nat.eqb_refl. }
  repeat split; try reflexivity; try exact Ec.
  - unfold cleanup, same_listener; simpl. now rewrite Nat.eqb_refl.
  - now apply deliver_message_none.
Qed.

End Facts.

(** A message of another extension component. *)
Lemma other_messages_are_ignored_witness :
  let msg := sample_message "openwpm" "logCall" (Some (sample_data "get" None)) in
  (namespace msg <> Some "javascript-instrumentation"
   \/ type msg <> Some "logCall" /\ type msg <> Some "logValue")
  /\ @onMessageListener_body Sample.lib Sample.js sample_json_args
       sample_script_listener msg (sample_sender None) initial
     = (Returned, initial).
Proof.
  intros msg.
  assert (Hno : namespace msg <> Some "javascript-instrumentation"
                \/ type msg <> Some "logCall" /\ type msg <> Some "logValue")
    by (left; discriminate).
  split; [exact Hno|].
  exact (@other_messages_are_ignored Sample.lib Sample.js sample_json_args
           sample_script_listener msg (sample_sender None) initial Hno).
Defined.

(** A call with two arguments, reported from a tab. *)
Lemma logged_operation_is_saved_witness :
  let d := sample_data "call" (Some ["a"; "b"]) in
  let msg := sample_message "javascript-instrumentation" "logCall" (Some d) in
  let sender := sample_sender (Some {| tab_url := Some "https://a.example/" |}) in
  namespace msg = Some "javascript-instrumentation"
  /\ (type msg = Some "logCall" \/ type msg = Some "logValue")
  /\ data msg = Some d
  /\ is_Some (tab sender)
  /\ (Data.operation d = Some "call" -> is_Some (Data.args d))
  /\ exists update,
       @onMessageListener_body Sample.lib Sample.js sample_json_args
         sample_script_listener msg sender initial
       = (Returned,
          {| onMessageListener := None; subscriptions := [];
             allocated := 0%nat;
             trace := [saveRecord "javascript" update] |})
       /\ JavascriptOperation.crawl_id update = 7
       /\ is_Some (JavascriptOperation.arguments update).
Proof.
  intros d msg sender.
  assert (Hargs : Data.operation d = Some "call" -> is_Some (Data.args d))
    by (intros _; eexists; reflexivity).
  split; [reflexivity|]. split; [now left|]. split; [reflexivity|].
  split; [eexists; reflexivity|]. split; [exact Hargs|].
  destruct (@logged_operation_is_saved Sample.lib Sample.js sample_json_args
              sample_script_listener msg sender initial d _
              eq_refl (or_introl eq_refl) eq_refl eq_refl Hargs)
    as (update & E & Ec & _ & _ & _ & _ & _ & _ & _ & _ & _ & _ & _ & _
        & Ha & _).
  exists update. split; [exact E|]. split; [exact Ec|].
  apply Ha. split; [reflexivity|]. eexists. split; [reflexivity|discriminate].
Defined.

(** The same call reported by a sender that is not in a tab. *)
Lemma incomplete_message_saves_nothing_witness :
  let msg := sample_message "javascript-instrumentation" "logCall"
               (Some (sample_data "call" (Some ["a"; "b"]))) in
  namespace msg = Some "javascript-instrumentation"
  /\ (type msg = Some "logCall" \/ type msg = Some "logValue")
  /\ tab (sample_sender None) = None
  /\ exists err,
       @onMessageListener_body Sample.lib Sample.js sample_json_args
         sample_script_listener msg (sample_sender None) initial
       = (Thrown err, initial).
Proof.
  intros msg.
  split; [reflexivity|]. split; [now left|]. split; [reflexivity|].
  exact (@incomplete_message_saves_nothing Sample.lib Sample.js sample_json_args
           sample_script_listener msg (sample_sender None) initial
           eq_refl (or_introl eq_refl) (or_intror (or_introl eq_refl))).
Defined.

(** A property read and then a call, delivered to a started instrument. *)
Example script_messages_trace :
  let s0 := JavascriptInstrument.run 7 initial in
  let sender := sample_sender (Some {| tab_url := Some "https://a.example/" |}) in
  let s1 := @deliver Sample.lib Sample.js sample_json_args
              (sample_message "javascript-instrumentation" "logValue"
                 (Some (sample_data "get" None))) sender s0 in
  let s2 := @deliver Sample.lib Sample.js sample_json_args
              (sample_message "javascript-instrumentation" "logCall"
                 (Some (sample_data "call" (Some ["a"])))) sender s1 in
  map (fun c => match c with
                | saveRecord table update =>
                    Some (table, JavascriptOperation.operation update,
                          JavascriptOperation.arguments update)
                | _ => None
                end) (trace s2)
  = [None;
     Some ("javascript", "get", None);
     Some ("javascript", "call",
           Some ("[" +:+ Sample.quote +:+ "a" +:+ Sample.quote +:+ "]"))].
Proof. vm_compute. reflexivity. Qed.

End JavascriptInstrumentFacts.

(** * Capture, from attachment to retrieval *)

Lemma getPendingResponse_found (requestId : Z) (s : State) (p : PendingResponse.t) :
  pendingResponses (this s) !! requestId = Some p ->
  getPendingResponse requestId s = (p, s).
Proof.
  intros E. unfold getPendingResponse, mbind, M_bind, read; simpl.
  now rewrite E.
Qed.

Lemma on_pendingResponse_eq (requestId : Z) f (s : State) :
  on_pendingResponse requestId f s
  = (tt, {| this := set_pendingResponses
                      (alter f requestId (pendingResponses (this s))) (this s);
            subscriptions := subscriptions s;
            allocated := allocated s;
            trace := trace s |}).
Proof. reflexivity. Qed.

Section Capture.

Context `{Lib} `{JsRuntime} `{Host}.

(** X21: attachment and retrieval fit together.  When the pre-request
    event of a transaction and then its completion are handled by the same
    listener configuration, neither stems from the extension and the capture
    policy holds for both, the body and the hash are asked from the listener
    that was built from that pre-request event; what follows the
    construction of the listener in the trace is decided by its two answers
    alone: [saveContent] with the escaped body and hash and then the record,
    or one [logError] and then the record with the sentinel. *)
Theorem capture_asks_the_attached_listener
    (l : Listener) (d : OnBeforeRequest.details) (c : OnCompleted.details)
    (s : State) :
  requestStemsFromExtension (OnBeforeRequest.originUrl d) = false ->
  requestStemsFromExtension (OnCompleted.originUrl c) = false ->
  OnCompleted.requestId c = OnBeforeRequest.requestId d ->
  capturePolicy (saveJavascript l) (saveAllContent l) (OnBeforeRequest.type d)
  = true ->
  capturePolicy (saveJavascript l) (saveAllContent l) (OnCompleted.type c)
  = true ->
  let s1 := snd (onBeforeRequestListener_body l d s) in
  let s2 := snd (onCompletedListener_body l c s1) in
  let tap := {| tapped := d |} in
  let update := responseUpdate c (crawlID l) in
  trace s2
  = trace s
    ++ new_ResponseBodyListener d
       :: match getResponseBody tap, getContentHash tap with
          | inr respBody, inr contentHash =>
              [saveContent (escapeString (Some respBody))
                           (escapeString (Some contentHash));
               saveRecord "http_responses" (ResponseRow update)]
          | inl err, _ | inr _, inl err =>
              [logError (retrieval_message err);
               saveRecord "http_responses"
                 (ResponseRow (HttpResponse.set_content_hash "<error>" update))]
          end.
Proof.
  intros Hd Hc Hid Pd Pc s1 s2 tap update.
  pose proof (onBeforeRequestListener_body_eq l d s Hd) as E1.
  cbv zeta in E1. rewrite Pd in E1.
  assert (L1 : exists p,
             pendingResponses (this s1) !! OnBeforeRequest.requestId d = Some p
             /\ PendingResponse.responseBodyListener p = Some tap).
  { subst s1. rewrite E1. cbn [snd this set_pendingResponses pendingResponses].
    rewrite !lookup_alter_eq.
    destruct (pendingResponses (this s) !! OnBeforeRequest.requestId d)
      as [q|] eqn:Eq; rewrite ?Eq, ?lookup_insert_eq; simpl; eauto. }
  destruct L1 as (p & Lp & Ltap).
  assert (T1 : trace s1 = trace s ++ [new_ResponseBodyListener d])
    by (subst s1; now rewrite E1).
  subst s2. unfold onCompletedListener_body. rewrite Hc, Hid.
  unfold mbind at 1, M_bind at 1.
  rewrite (getPendingResponse_found _ s1 p Lp).
  unfold mbind at 1, M_bind at 1.
  rewrite on_pendingResponse_eq.
  set (s1' := {| this := _; subscriptions := _; allocated := _; trace := trace s1 |}).
  assert (L2 : pendingResponses (this s1') !! OnBeforeRequest.requestId d
               = Some (PendingResponse.resolveOnCompletedEventDetails c p)).
  { subst s1'. unfold set_pendingResponses; simpl.
    now rewrite lookup_alter_eq, Lp. }
  assert (T2 : trace s1' = trace s1) by reflexivity.
  rewrite onCompletedHandler_policy, Pc.
  unfold logWithResponseBody, mbind, M_bind. rewrite Hid.
  rewrite (getPendingResponse_found _ s1' _ L2).
  unfold retrieve. cbn [PendingResponse.resolveOnCompletedEventDetails
                          PendingResponse.responseBodyListener].
  rewrite Ltap. fold tap.
  destruct (getResponseBody tap) as [e|respBody];
    [|destruct (getContentHash tap) as [e|contentHash]];
    unfold call; simpl; rewrite T1, <- !app_assoc; reflexivity.
Qed.

End Capture.

(** Scenario 4 again, as an instance: capture-all mode, an image. *)
Lemma capture_asks_the_attached_listener_witness :
  let l := sample_listener false true in
  let d := sample_beforeRequest "image" None in
  let c := sample_completed "image" in
  requestStemsFromExtension (OnBeforeRequest.originUrl d) = false
  /\ requestStemsFromExtension (OnCompleted.originUrl c) = false
  /\ OnCompleted.requestId c = OnBeforeRequest.requestId d
  /\ capturePolicy (saveJavascript l) (saveAllContent l) "image" = true
  /\ trace (snd (@onCompletedListener_body Sample.lib Sample.js Sample.host l c
                   (snd (onBeforeRequestListener_body l d initial))))
     = trace initial
       ++ [new_ResponseBodyListener d;
           saveContent "hello"
             "2cf24dba5fb0a30e26e83b2ac5b9e29e1b161e5c1fa7425e73043362938b9824";
           saveRecord "http_responses"
             (ResponseRow (@responseUpdate Sample.lib Sample.js c 7))].
Proof.
  intros l d c.
  split; [reflexivity|]. split; [reflexivity|]. split; [reflexivity|].
  split; [reflexivity|].
  exact (@capture_asks_the_attached_listener Sample.lib Sample.js Sample.host
           l d c initial eq_refl eq_refl eq_refl eq_refl eq_refl).
Defined.
